(** * Forest_fire_prediction: the prediction endpoint of [UI_page/backend_api.py]

    A shallow embedding of the Flask backend: the date mapping function
    [get_sample_date_range] together with the part of Python's [datetime]
    module it runs on, and the request handler [predict] of the route
    [POST /api/predict], written in a small state-and-exception monad over
    the process state (random generator, model state, log of external
    calls).  The trained model, numpy and the string-to-float conversion are
    black boxes and appear as the operations of the class [Runtime]. *)

From Stdlib Require Import ZArith Lia List Ascii String.
From stdpp Require Import base option strings pretty gmap fin_maps.
Import ListNotations.

Local Open Scope string_scope.
Local Open Scope Z_scope.

(** ** Python exceptions and the exception monad *)

(** An exception object: its class and the text [str(e)] that an f-string
    interpolates. *)
Record PyExn := mkExn { exn_class : string; exn_str : string }.

Definition Exc (A : Type) : Type := PyExn + A.

Definition exc_ret {A} (a : A) : Exc A := inr a.
Definition exc_raise {A} (e : PyExn) : Exc A := inl e.
Definition exc_bind {A B} (m : Exc A) (k : A -> Exc B) : Exc B :=
  match m with
  | inl e => inl e
  | inr a => k a
  end.

Declare Scope exc_scope.
Delimit Scope exc_scope with exc.
Notation "'let?' x ':=' m 'in' k" := (exc_bind m (fun x => k))
  (at level 10, x name, m at level 100, k at level 200) : exc_scope.

(** Python's [divmod] on integers with a positive divisor: floor division. *)
Definition divmod (a b : Z) : Z * Z := (a / b, a mod b).

(** ** The calendar of Python's [datetime] module *)

Module Calendar.

Definition _DAYS_IN_MONTH : list Z :=
  [-1; 31; 28; 31; 30; 31; 30; 31; 31; 30; 31; 30; 31].

Definition _DAYS_BEFORE_MONTH : list Z :=
  [-1; 0; 31; 59; 90; 120; 151; 181; 212; 243; 273; 304; 334].

Definition _MAXORDINAL : Z := 3652059.

(** Python's list indexing by a non-negative index (the tables above are
    only read at indices 1..12). *)
Definition tbl (l : list Z) (i : Z) : Z := nth (Z.to_nat i) l 0.

Definition _is_leap (year : Z) : bool :=
  (year mod 4 =? 0) && (negb (year mod 100 =? 0) || (year mod 400 =? 0)).

Definition _days_before_year (year : Z) : Z :=
  let y := year - 1 in
  y * 365 + y / 4 - y / 100 + y / 400.

Definition _days_in_month (year month : Z) : Z :=
  if (month =? 2) && _is_leap year then 29 else tbl _DAYS_IN_MONTH month.

Definition _days_before_month (year month : Z) : Z :=
  tbl _DAYS_BEFORE_MONTH month
  + (if (2 <? month) && _is_leap year then 1 else 0).

Definition _ymd2ord (year month day : Z) : Z :=
  _days_before_year year + _days_before_month year month + day.

Definition _DI400Y : Z := Eval cbv in _days_before_year 401.
Definition _DI100Y : Z := Eval cbv in _days_before_year 101.
Definition _DI4Y : Z := Eval cbv in _days_before_year 5.

Definition _ord2ymd (n : Z) : Z * Z * Z :=
  let n := n - 1 in
  let '(n400, n) := divmod n _DI400Y in
  let year := n400 * 400 + 1 in
  let '(n100, n) := divmod n _DI100Y in
  let '(n4, n) := divmod n _DI4Y in
  let '(n1, n) := divmod n 365 in
  let year := year + (n100 * 100 + n4 * 4 + n1) in
  if (n1 =? 4) || (n100 =? 4) then (year - 1, 12, 31)
  else
    let leapyear := (n1 =? 3) && (negb (n4 =? 24) || (n100 =? 3)) in
    let month := Z.shiftr (n + 50) 5 in
    let preceding :=
      tbl _DAYS_BEFORE_MONTH month
      + (if (2 <? month) && leapyear then 1 else 0) in
    let '(month, preceding) :=
      if n <? preceding
      then (month - 1,
            preceding - (tbl _DAYS_IN_MONTH (month - 1)
                         + (if (month - 1 =? 2) && leapyear then 1 else 0)))
      else (month, preceding) in
    (year, month, n - preceding + 1).

End Calendar.

(** ** [timedelta] and [datetime] *)

Record timedelta := mkDelta { td_days : Z; td_seconds : Z; td_microseconds : Z }.

Record datetime := mkDatetime {
  dt_year : Z; dt_month : Z; dt_day : Z;
  dt_hour : Z; dt_minute : Z; dt_second : Z; dt_microsecond : Z
}.

(** The fields of a duration in normal form: seconds in 0..86399 and
    microseconds in 0..999999, the rest carried into the days. *)
Definition timedelta_normalize (days seconds microseconds : Z) : timedelta :=
  let '(d1, s1) := divmod seconds (24 * 3600) in
  let '(s2, us) := divmod microseconds 1000000 in
  let '(d2, s3) := divmod s2 (24 * 3600) in
  let '(d3, s) := divmod (s1 + s3) (24 * 3600) in
  mkDelta (days + d1 + d2 + d3) s us.

(** [timedelta(days, seconds, microseconds)] on integer arguments: the
    fields are normalised and the day count is range-checked, first
    against the machine integer that holds it, then against the largest
    duration. *)
Definition timedelta_new (days seconds microseconds : Z) : Exc timedelta :=
  let t := timedelta_normalize days seconds microseconds in
  let d := td_days t in
  if (d <? -2147483648) || (2147483647 <? d)
  then exc_raise (mkExn "OverflowError" "Python int too large to convert to C int")
  else if 999999999 <? Z.abs d
  then exc_raise (mkExn "OverflowError"
                    ("days=" +:+ pretty d +:+ "; must have magnitude <= 999999999"))
  else exc_ret t.

(** [timedelta(hours=h)]: the constructor adds [hours*3600] to the seconds. *)
Definition timedelta_hours (hours : Z) : Exc timedelta :=
  timedelta_new 0 (hours * 3600) 0.

Definition toordinal (d : datetime) : Z :=
  Calendar._ymd2ord (dt_year d) (dt_month d) (dt_day d).

(** [datetime.__add__(self, other)] for a [timedelta] on the right: the
    fields are summed and normalised, and a day outside 0001-01-01 ..
    9999-12-31 is an [OverflowError]. *)
Definition datetime_add (self : datetime) (other : timedelta) : Exc datetime :=
  let delta :=
    timedelta_normalize
      (toordinal self + td_days other)
      (dt_hour self * 3600 + dt_minute self * 60 + dt_second self
       + td_seconds other)
      (dt_microsecond self + td_microseconds other) in
  let '(hour, rem) := divmod (td_seconds delta) 3600 in
  let '(minute, second) := divmod rem 60 in
  if (0 <? td_days delta) && (td_days delta <=? Calendar._MAXORDINAL)
  then
    let '(y, m, d) := Calendar._ord2ymd (td_days delta) in
    exc_ret (mkDatetime y m d hour minute second (td_microseconds delta))
  else exc_raise (mkExn "OverflowError" "date value out of range").

(** ** [strftime] *)

Definition digit (d : Z) : ascii := ascii_of_nat (48 + Z.to_nat (d mod 10)).

(** The [width] low decimal digits of [n], zeros included: the [%02d] and
    [%04d] of the C formatter on the field values of a [datetime]
    (two-digit fields below 100, years below 10000). *)
Fixpoint zero_pad (width : nat) (n : Z) : string :=
  match width with
  | O => ""
  | S w => zero_pad w (n / 10) +:+ String (digit n) ""
  end.

Definition directive (c : ascii) (d : datetime) : option string :=
  if Ascii.eqb c "H"%char then Some (zero_pad 2 (dt_hour d))
  else if Ascii.eqb c "M"%char then Some (zero_pad 2 (dt_minute d))
  else if Ascii.eqb c "S"%char then Some (zero_pad 2 (dt_second d))
  else if Ascii.eqb c "Y"%char then Some (zero_pad 4 (dt_year d))
  else if Ascii.eqb c "m"%char then Some (zero_pad 2 (dt_month d))
  else if Ascii.eqb c "d"%char then Some (zero_pad 2 (dt_day d))
  else if Ascii.eqb c "%"%char then Some "%"
  else None.

(** The format interpreter, for the directives the program uses; any other
    character pair is copied as it stands.  [%Y] is rendered on four digits,
    which is what every platform does from the year 1000 on; for earlier
    years the C library decides whether the year is padded. *)
Fixpoint strftime_aux (fmt : string) (d : datetime) : string :=
  match fmt with
  | EmptyString => ""
  | String c rest =>
      if Ascii.eqb c "%"%char then
        match rest with
        | String k rest' =>
            match directive k d with
            | Some s => s +:+ strftime_aux rest' d
            | None => String c (String k (strftime_aux rest' d))
            end
        | EmptyString => String c ""
        end
      else String c (strftime_aux rest d)
  end.

Definition strftime (d : datetime) (fmt : string) : string := strftime_aux fmt d.

(** ** Module constants *)

(** The module-level constants of [backend_api.py], read by the functions
    below as globals. *)
Record Config := mkConfig {
  SEQ_LEN : Z;
  HORIZONS : Z;
  PATCH_H : Z;
  PATCH_W : Z;
  CHANNELS : Z;
  FIXED_SAMPLE_INDEX : Z;
  START_DATE : datetime
}.

Definition module_config : Config := {|
  SEQ_LEN := 6;
  HORIZONS := 3;
  PATCH_H := 13;
  PATCH_W := 13;
  CHANNELS := 7;
  FIXED_SAMPLE_INDEX := 17;
  START_DATE := mkDatetime 2015 1 1 0 0 0 0
|}.

(** ** The date mapping function *)

Record TimeWindow := mkTimeWindow {
  inputStart : string;
  inputEnd : string;
  predStart : string;
  predEnd : string;
  date : string;
  full_start_date : string
}.

Section DateRange.
Variable cfg : Config.
Variable sample_index : Z.
Variable start_date : datetime.

Definition input_start_hour_offset : Z := sample_index.
Definition input_end_hour_offset : Z := sample_index + SEQ_LEN cfg - 1.
Definition pred_start_hour_offset : Z := sample_index + SEQ_LEN cfg.
Definition pred_end_hour_offset : Z :=
  pred_start_hour_offset + HORIZONS cfg - 1.

(** [start_date + timedelta(hours=h)] *)
Definition plus_hours (h : Z) : Exc datetime :=
  (let? td := timedelta_hours h in datetime_add start_date td)%exc.

Definition input_start_time : Exc datetime := plus_hours input_start_hour_offset.
Definition input_end_time : Exc datetime := plus_hours input_end_hour_offset.
Definition pred_start_time : Exc datetime := plus_hours pred_start_hour_offset.
Definition pred_end_time : Exc datetime := plus_hours pred_end_hour_offset.

Definition get_sample_date_range : Exc TimeWindow :=
  (let? input_start_time := input_start_time in
   let? input_end_time := input_end_time in
   let? pred_start_time := pred_start_time in
   let? pred_end_time := pred_end_time in
   exc_ret {|
     inputStart := strftime input_start_time "%H:%M:%S";
     inputEnd := strftime input_end_time "%H:%M:%S";
     predStart := strftime pred_start_time "%H:%M:%S";
     predEnd := strftime pred_end_time "%H:%M:%S";
     date := strftime input_start_time "%Y-%m-%d";
     full_start_date := strftime input_start_time "%Y-%m-%d %H:%M:%S"
   |})%exc.
End DateRange.

(** *** Particular records and configurations *)

(** The window the handler reports: that of the fixed sample of the module. *)
Definition module_time_details : TimeWindow := {|
  inputStart := "17:00:00";
  inputEnd := "22:00:00";
  predStart := "23:00:00";
  predEnd := "01:00:00";
  date := "2015-01-01";
  full_start_date := "2015-01-01 17:00:00"
|}.

(** The record the specification expects for sample 17. *)
Definition sample17_expected : TimeWindow := {|
  inputStart := "17:00:00";
  inputEnd := "22:00:00";
  predStart := "23:00:00";
  predEnd := "01:00:00";
  date := "2015-01-02";
  full_start_date := "2015-01-02 17:00:00"
|}.


(** A horizon of 27 hours instead of 3: the prediction window then ends a
    whole day later, at the same time of day. *)
Definition long_horizon_config : Config := {|
  SEQ_LEN := 6;
  HORIZONS := 27;
  PATCH_H := 13;
  PATCH_W := 13;
  CHANNELS := 7;
  FIXED_SAMPLE_INDEX := 17;
  START_DATE := mkDatetime 2015 1 1 0 0 0 0
|}.

(** ** The handler monad: state and exceptions *)

(** A computation runs in a process state [W]; it ends with a value or with
    a raised exception, and in both cases with a new state. *)
Definition Py (W A : Type) : Type := W -> Exc A * W.

Definition py_ret {W A} (a : A) : Py W A := fun w => (inr a, w).
Definition py_bind {W A B} (m : Py W A) (k : A -> Py W B) : Py W B :=
  fun w =>
    match m w with
    | (inl e, w') => (inl e, w')
    | (inr a, w') => k a w'
    end.
Definition py_lift {W A} (m : Exc A) : Py W A := fun w => (m, w).

(** [try: m  except Exception as e: ...] : the outcome of [m] as a value. *)
Definition py_try {W A} (m : Py W A) : Py W (Exc A) :=
  fun w => let '(r, w') := m w in (inr r, w').

Declare Scope py_scope.
Delimit Scope py_scope with py.
Notation "x <- m ;; k" := (py_bind m (fun x => k))
  (at level 100, m at next level, right associativity) : py_scope.

(** ** The black boxes of the handler *)

(** What the handler consumes without defining it: Python's conversion of
    integers and strings to [float] and [repr] of a string, numpy's global
    random generator and arrays, and the loaded Keras model, whose [predict]
    may raise and may depend on a state of its own. *)
Class Runtime := {
  pyfloat : Type;
  float_of_int : Z -> option pyfloat;
  float_of_str : string -> option pyfloat;
  repr_str : string -> string;
  ndarray : Type;
  pylist : Type;
  rng_state : Type;
  random_rand : list Z -> rng_state -> ndarray * rng_state;
  astype_float32 : ndarray -> ndarray;
  index0 : ndarray -> Exc ndarray;
  tolist : ndarray -> pylist;
  keras_model : Type;
  model_state : Type;
  model_predict :
    keras_model -> ndarray -> model_state -> Exc ndarray * model_state
}.

Section Handler.
Context {R : Runtime}.

(** *** Values decoded from a JSON body *)

#[local] Set Warnings "-register-all".
Inductive PyVal :=
| PNone
| PBool (b : bool)
| PInt (z : Z)
| PFloat (f : pyfloat)
| PStr (s : string)
| PList (l : list PyVal)
| PDict (d : gmap string PyVal).

Definition type_name (v : PyVal) : string :=
  match v with
  | PNone => "NoneType"
  | PBool _ => "bool"
  | PInt _ => "int"
  | PFloat _ => "float"
  | PStr _ => "str"
  | PList _ => "list"
  | PDict _ => "dict"
  end.

(** The builtin [float(v)]. *)
Definition py_float (v : PyVal) : Exc pyfloat :=
  let of_int z :=
    match float_of_int z with
    | Some f => exc_ret f
    | None => exc_raise (mkExn "OverflowError" "int too large to convert to float")
    end in
  match v with
  | PFloat f => exc_ret f
  | PInt z => of_int z
  | PBool b => of_int (Z.b2z b)
  | PStr s =>
      match float_of_str s with
      | Some f => exc_ret f
      | None =>
          exc_raise (mkExn "ValueError"
                       ("could not convert string to float: " +:+ repr_str s))
      end
  | _ =>
      exc_raise (mkExn "TypeError"
                   ("float() argument must be a string or a real number, not '"
                    +:+ type_name v +:+ "'"))
  end.

(** [data.get(key)]: the method exists on a [dict] only, where a missing
    key gives [None]. *)
Definition py_get (data : PyVal) (key : string) : Exc PyVal :=
  match data with
  | PDict d => exc_ret (default PNone (d !! key))
  | _ =>
      exc_raise (mkExn "AttributeError"
                   ("'" +:+ type_name data +:+ "' object has no attribute 'get'"))
  end.

(** A request, as far as the handler looks at it: what evaluating
    [request.json] gives, the decoded body or the exception Flask raises
    for a body that is not JSON. *)
Record Request := mkRequest { request_json : Exc PyVal }.

(** *** Responses *)

Inductive Body :=
| ErrorBody (error : string)
| ResultBody (prediction_results : pylist) (time_details : TimeWindow)
| InternalServerError.

Record Response := mkResponse { body : Body; status : Z }.

(** *** Process state and the handler monad *)

Inductive Event :=
| EvRequestJson
| EvRandomRand (shape : list Z)
| EvModelPredict (input : ndarray).

(** The state a request runs in: numpy's generator, the model's own
    state, and the log of the external calls made so far (newest first). *)
Record World := mkWorld {
  rng : rng_state;
  backend : model_state;
  calls : list Event
}.

Definition log (ev : Event) : Py World unit :=
  fun w => (inr tt, mkWorld (rng w) (backend w) (ev :: calls w)).

(** Evaluating [request.json]. *)
Definition read_json (req : Request) : Py World PyVal :=
  (_ <- log EvRequestJson ;; py_lift (request_json req))%py.

(** [np.random.rand(d0, ..., dn)]: draws from the global generator. *)
Definition np_random_rand (shape : list Z) : Py World ndarray :=
  (_ <- log (EvRandomRand shape) ;;
   fun w =>
     let '(a, g) := random_rand shape (rng w) in
     (inr a, mkWorld g (backend w) (calls w)))%py.

(** [model.predict(x)] *)
Definition call_predict (model : keras_model) (x : ndarray) : Py World ndarray :=
  (_ <- log (EvModelPredict x) ;;
   fun w =>
     let '(r, b) := model_predict model x (backend w) in
     (r, mkWorld (rng w) b (calls w)))%py.

(** *** The route [POST /api/predict] *)

Variable cfg : Config.

(** [model] is the module global set when the server starts: [None] when
    loading the model file failed. *)
Variable model : option keras_model.

(** The body of the first [try] block. *)
Definition read_bounds (req : Request) : Py World (pyfloat * pyfloat) :=
  (data <- read_json req ;;
   lat_min <- py_lift (let? v := py_get data "latMin" in py_float v)%exc ;;
   lon_min <- py_lift (let? v := py_get data "lonMin" in py_float v)%exc ;;
   py_ret (lat_min, lon_min))%py.

(** The simulated input: [np.random.rand(1, SEQ_LEN, PATCH_H, PATCH_W,
    CHANNELS).astype(np.float32)]. *)
Definition input_shape : list Z :=
  [1; SEQ_LEN cfg; PATCH_H cfg; PATCH_W cfg; CHANNELS cfg].

Definition make_input_tensor : Py World ndarray :=
  (a <- np_random_rand input_shape ;; py_ret (astype_float32 a))%py.

(** The body of the second [try] block. *)
Definition run_inference (model : keras_model) (input_tensor : ndarray)
  : Py World pylist :=
  (prediction_output <- call_predict model input_tensor ;;
   first <- py_lift (index0 prediction_output) ;;
   py_ret (tolist first))%py.

Definition predict (req : Request) : Py World Response :=
  match model with
  | None =>
      py_ret (mkResponse (ErrorBody "Model failed to load on server startup.") 500)
  | Some model =>
      (parsed <- py_try (read_bounds req) ;;
       match parsed with
       | inl e =>
           py_ret (mkResponse
                     (ErrorBody ("Invalid input coordinates: " +:+ exn_str e)) 400)
       | inr _ =>
           time_details <- py_lift (get_sample_date_range cfg
                                      (FIXED_SAMPLE_INDEX cfg) (START_DATE cfg)) ;;
           input_tensor <- make_input_tensor ;;
           inferred <- py_try (run_inference model input_tensor) ;;
           match inferred with
           | inl e =>
               py_ret (mkResponse
                         (ErrorBody ("Model inference failed: " +:+ exn_str e)) 500)
           | inr prediction_list =>
               py_ret (mkResponse (ResultBody prediction_list time_details) 200)
           end
       end)%py
  end.

(** Flask around the view function: an exception that leaves the view is
    answered with the generic 500 page, and the server goes on. *)
Definition dispatch (req : Request) (w : World) : Response * World :=
  match predict req w with
  | (inr resp, w') => (resp, w')
  | (inl _, w') => (mkResponse InternalServerError 500, w')
  end.

(** [app.run]: the requests are answered one after the other. *)
Fixpoint serve (reqs : list Request) (w : World) : list Response * World :=
  match reqs with
  | [] => ([], w)
  | req :: rest =>
      let '(resp, w') := dispatch req w in
      let '(resps, w'') := serve rest w' in
      (resp :: resps, w'')
  end.
End Handler.

(** [needle] occurs in [s]. *)
Fixpoint is_substring (needle s : string) : bool :=
  String.prefix needle s
  || match s with
     | EmptyString => false
     | String _ rest => is_substring needle rest
     end.

Definition bbox_fields : list string := ["latMin"; "lonMin"; "latMax"; "lonMax"].

(** ** Observations on requests, states and responses *)

Section Observations.
Context {R : Runtime}.

(** The field [key] of the body is present and [float] accepts it. *)
Definition field_numeric (req : Request) (key : string) : bool :=
  match request_json req with
  | inr (PDict d) =>
      match d !! key with
      | Some v => match py_float v with inr _ => true | inl _ => false end
      | None => false
      end
  | _ => false
  end.

(** The inputs [model.predict] has been called with, newest first. *)
Definition predict_calls (w : World) : list ndarray :=
  omap (fun ev => match ev with EvModelPredict x => Some x | _ => None end)
       (calls w).

(** The error string of a response, if it has one. *)
Definition error_of (resp : Response) : option string :=
  match body resp with
  | ErrorBody msg => Some msg
  | _ => None
  end.

(** The outcome of the first [try] block as a function of the request. *)
Definition bounds_outcome (req : Request) : Exc (pyfloat * pyfloat) :=
  (let? data := request_json req in
   let? lat_min := (let? v := py_get data "latMin" in py_float v) in
   let? lon_min := (let? v := py_get data "lonMin" in py_float v) in
   exc_ret (lat_min, lon_min))%exc.

(** The state after the body has been read. *)
Definition body_read (w : World) : World :=
  mkWorld (rng w) (backend w) (EvRequestJson :: calls w).

(** The tensor the handler draws when it starts in state [w]. *)
Definition drawn_input (cfg : Config) (w : World) : ndarray :=
  astype_float32 (fst (random_rand (input_shape cfg) (rng w))).

(** The outcome of the second [try] block on the answer of the model. *)
Definition inference_outcome (answer : Exc ndarray) : Exc pylist :=
  (let? prediction_output := answer in
   let? first := index0 prediction_output in
   exc_ret (tolist first))%exc.

(** The state after a request that reached the model. *)
Definition inferred (cfg : Config) (m : keras_model) (w : World) : World :=
  mkWorld (snd (random_rand (input_shape cfg) (rng w)))
          (snd (model_predict m (drawn_input cfg w) (backend w)))
          (EvModelPredict (drawn_input cfg w)
             :: EvRandomRand (input_shape cfg) :: EvRequestJson :: calls w).

(** The exception a rejected request is rejected for: raised by
    [request.json], by the lookup on a body that is no [dict], or by [float]
    on the value of [latMin] or of [lonMin] ([None] when the key is
    missing). *)
Inductive offending (req : Request) (e : PyExn) : Prop :=
| offending_body :
    request_json req = inl e -> offending req e
| offending_not_dict (data : PyVal) :
    request_json req = inr data -> py_get data "latMin" = inl e ->
    offending req e
| offending_latMin (d : gmap string PyVal) :
    request_json req = inr (PDict d) ->
    py_float (default PNone (d !! "latMin")) = inl e ->
    offending req e
| offending_lonMin (d : gmap string PyVal) (lat_min : pyfloat) :
    request_json req = inr (PDict d) ->
    py_float (default PNone (d !! "latMin")) = inr lat_min ->
    py_float (default PNone (d !! "lonMin")) = inl e ->
    offending req e.

(** The sentence of the specification on error texts: when some
    bounding-box field is missing or not numeric, the request is answered
    with a 400 whose error string names each such field. *)
Definition error_names_fields
    (cfg : Config) (m : keras_model) (req : Request) (w : World) : Prop :=
  (exists key, In key bbox_fields /\ field_numeric req key = false) ->
  exists resp w',
    predict cfg (Some m) req w = (inr resp, w')
    /\ status resp = 400
    /\ forall key, In key bbox_fields -> field_numeric req key = false ->
         exists msg, error_of resp = Some msg /\ is_substring key msg = true.

Definition unavailable : Response :=
  mkResponse (ErrorBody "Model failed to load on server startup.") 500.
End Observations.

(** ** A small executable runtime

    Enough of an instance of [Runtime] to run the handler on concrete
    requests: floats are stood for by integers, only digit strings convert,
    an array is a nested list, the generator is a counter, the array drawn
    is stood for by its shape, and a model either answers with a batch of
    one all-zero element or raises. *)

Module Stub.

Fixpoint digits_value (acc : Z) (s : string) : option Z :=
  match s with
  | EmptyString => Some acc
  | String c rest =>
      let n := Z.of_nat (nat_of_ascii c) in
      if (48 <=? n) && (n <=? 57) then digits_value (10 * acc + (n - 48)) rest
      else None
  end.

Definition parse (s : string) : option Z :=
  match s with
  | EmptyString => None
  | _ => digits_value 0 s
  end.

Inductive model := Healthy | Failing (msg : string).

#[local] Set Warnings "-register-all".
Inductive arr := Scalar (z : Z) | Arr (items : list arr).

Definition run_model (m : model) (x : arr) (calls_so_far : nat)
  : Exc arr * nat :=
  match m with
  | Healthy => (inr (Arr [Arr [Scalar 0; Scalar 0; Scalar 0]]), S calls_so_far)
  | Failing msg => (inl (mkExn "RuntimeError" msg), S calls_so_far)
  end.

Definition runtime : Runtime := {|
  pyfloat := Z;
  float_of_int := Some;
  float_of_str := parse;
  repr_str := fun s => "'" +:+ s +:+ "'";
  ndarray := arr;
  pylist := arr;
  rng_state := nat;
  random_rand := fun shape g => (Arr (map Scalar shape), S g);
  astype_float32 := fun a => a;
  index0 := fun a =>
    match a with
    | Arr (first :: _) => inr first
    | Arr [] =>
        inl (mkExn "IndexError" "index 0 is out of bounds for axis 0 with size 0")
    | Scalar _ =>
        inl (mkExn "IndexError" "invalid index to scalar variable.")
    end;
  tolist := fun a => a;
  keras_model := model;
  model_state := nat;
  model_predict := run_model
|}.

Definition world0 : @World runtime := mkWorld (R := runtime) O O [].

Definition json (fields : list (string * @PyVal runtime)) : @Request runtime :=
  mkRequest (inr (PDict (list_to_map fields))).

(** [{}] *)
Definition req_empty : @Request runtime := json [].
(** [{"latMin": 10, "lonMin": "20", "latMax": 30, "lonMax": 40}] *)
Definition req_full : @Request runtime :=
  json [("latMin", PInt 10); ("lonMin", PStr "20");
        ("latMax", PInt 30); ("lonMax", PInt 40)].
(** [{"latMin": 1, "lonMin": 2, "lonMax": "east"}] *)
Definition req_partial : @Request runtime :=
  json [("latMin", PInt 1); ("lonMin", PInt 2); ("lonMax", PStr "east")].
(** [{"latMin": "north", "lonMin": 2}] *)
Definition req_bad_lat : @Request runtime :=
  json [("latMin", PStr "north"); ("lonMin", PInt 2)].

End Stub.

(** ** The custom layer functions and their shape functions *)

(** How many items the slice [seq[:k]] keeps of a sequence of [n] items: a
    negative [k] counts from the end, and the bound is clipped to the
    sequence. *)
Definition slice_stop (k : Z) (n : nat) : nat :=
  if k <? 0 then Z.to_nat (Z.max 0 (Z.of_nat n + k))
  else Nat.min n (Z.to_nat k).

(** [seq[:k]] *)
Definition py_slice_to {A} (k : Z) (l : list A) : list A :=
  take (slice_stop k (length l)) l.

(** [tup[i]] for a constant index [i >= 0]. *)
Definition tuple_index {A} (tup : list A) (i : nat) : Exc A :=
  match tup !! i with
  | Some x => exc_ret x
  | None => exc_raise (mkExn "IndexError" "tuple index out of range")
  end.

(** An entry of a Keras shape: a size, or [None] for a dimension that is
    not known (the batch). *)
Definition dim : Type := option Z.

Definition slice_output_shape (cfg : Config) (input_shape : list dim)
  : Exc (list dim) :=
  (let? d0 := tuple_index input_shape 0 in
   let? d2 := tuple_index input_shape 2 in
   let? d3 := tuple_index input_shape 3 in
   let? d4 := tuple_index input_shape 4 in
   exc_ret [d0; Some (HORIZONS cfg); d2; d3; d4])%exc.

Definition squeeze_output_shape (input_shape : list dim) : list dim :=
  py_slice_to (-1) input_shape.

Section Tensors.
Context {A : Type}.

(** A dense tensor: its shape and its elements in row-major order. *)
Record tensor := mkTensor { t_shape : list nat; t_data : list A }.

Definition numel (shape : list nat) : nat := foldr Nat.mul 1%nat shape.

Definition well_formed (x : tensor) : Prop :=
  length (t_data x) = numel (t_shape x).

(** Of [count] consecutive blocks of [chunk] elements, the first [keep]
    elements of each. *)
Fixpoint take_chunks (count chunk keep : nat) (data : list A) : list A :=
  match count with
  | O => []
  | S n => take keep data ++ take_chunks n chunk keep (drop chunk data)
  end.

(** [x[:, :HORIZONS, :, :, :]]: a prefix of axis 1; five indices need a
    tensor of rank 5 at least ([None] stands for the error raised
    otherwise). *)
Definition slice_output_func (cfg : Config) (x : tensor) : option tensor :=
  match t_shape x with
  | b :: t :: rest =>
      if (3 <=? length rest)%nat then
        let keep := slice_stop (HORIZONS cfg) t in
        Some (mkTensor (b :: keep :: rest)
                (take_chunks b (t * numel rest) (keep * numel rest) (t_data x)))
      else None
  | _ => None
  end.

(** [tf.squeeze(x, axis=-1)]: drops the last axis, which must have size 1. *)
Definition squeeze_output_func (x : tensor) : option tensor :=
  match last (t_shape x) with
  | Some 1%nat => Some (mkTensor (removelast (t_shape x)) (t_data x))
  | _ => None
  end.

(** The static shape of a tensor, every dimension known. *)
Definition shape_of (x : tensor) : list dim :=
  map (fun n => Some (Z.of_nat n)) (t_shape x).
End Tensors.

Arguments tensor A : clear implicits.

(** ** Loading the model when the server starts *)

Definition MODEL_PATH : string := "C:\Users\Ankit\Downloads\final_model.h5".

Section Startup.
Context {R : Runtime}.

(** [tf.keras.models.load_model(MODEL_PATH, custom_objects=CUSTOM_OBJECTS,
    safe_mode=False)], a black box of the module. *)
Variable load_model : string -> Exc keras_model.

(** The [try] statement around the load: the value of the global [model]
    and the lines printed. *)
Definition startup : option keras_model * list string :=
  let line1 := "Loading model from: " +:+ MODEL_PATH in
  match load_model MODEL_PATH with
  | inr m => (Some m, [line1; "Model loaded successfully."])
  | inl e =>
      (None,
       [line1;
        "[CRITICAL ERROR] Failed to load model. Please check the path and dependencies.";
        "Error: " +:+ exn_str e])
  end.

(** The process: load once, then answer the requests. *)
Definition run_server (reqs : list Request) (w : World) : list Response * World :=
  serve module_config (fst startup) reqs w.
End Startup.

(** ** Derived notions for the statements below *)

(** The hour offsets at which adding to the base date of the module stays
    within the years 1..9999. *)
Definition hour_in_calendar (h : Z) : Prop := -17654352 <= h < 69995064.

(** The time of day [h] o'clock sharp, as the handler renders it. *)
Definition on_the_hour (h : Z) : string := zero_pad 2 h +:+ ":00:00".

Section Validity.
Context {R : Runtime}.

(** The request passes the first [try] block. *)
Definition valid_request (req : Request) : bool :=
  field_numeric req "latMin" && field_numeric req "lonMin".
End Validity.

(** The stub runtime with a model that answers with an empty batch, on which
    the indexing after the call fails. *)
Definition empty_batch_runtime : Runtime := {|
  pyfloat := Z;
  float_of_int := Some;
  float_of_str := Stub.parse;
  repr_str := fun s => "'" +:+ s +:+ "'";
  ndarray := Stub.arr;
  pylist := Stub.arr;
  rng_state := nat;
  random_rand := fun shape g => (Stub.Arr (map Stub.Scalar shape), S g);
  astype_float32 := fun a => a;
  index0 := @index0 Stub.runtime;
  tolist := fun a => a;
  keras_model := unit;
  model_state := nat;
  model_predict := fun _ _ n => (inr (Stub.Arr []), S n)
|}.


(** ** The view function with its final [jsonify] *)

Section View.
Context {R : Runtime}.

(** [jsonify] of the success body (lines 114-117), which stands outside
    both [try] blocks: the exception it raises on a prediction list that
    does not serialise, if any.  The error bodies and the time window hold
    strings only. *)
Variable jsonify_error : pylist -> option PyExn.

Definition jsonify_result (prediction_list : pylist) : Py World unit :=
  py_lift match jsonify_error prediction_list with
          | Some e => exc_raise e
          | None => exc_ret tt
          end.

Variable cfg : Config.
Variable model : option keras_model.

(** The view function [predict] down to its last statement. *)
Definition predict_view (req : Request) : Py World Response :=
  match model with
  | None =>
      py_ret (mkResponse (ErrorBody "Model failed to load on server startup.") 500)
  | Some model =>
      (parsed <- py_try (read_bounds req) ;;
       match parsed with
       | inl e =>
           py_ret (mkResponse
                     (ErrorBody ("Invalid input coordinates: " +:+ exn_str e)) 400)
       | inr _ =>
           time_details <- py_lift (get_sample_date_range cfg
                                      (FIXED_SAMPLE_INDEX cfg) (START_DATE cfg)) ;;
           input_tensor <- make_input_tensor cfg ;;
           inferred <- py_try (run_inference model input_tensor) ;;
           match inferred with
           | inl e =>
               py_ret (mkResponse
                         (ErrorBody ("Model inference failed: " +:+ exn_str e)) 500)
           | inr prediction_list =>
               _ <- jsonify_result prediction_list ;;
               py_ret (mkResponse (ResultBody prediction_list time_details) 200)
           end
       end)%py
  end.

(** Flask around [predict_view]: an exception that leaves the view is
    answered with the generic 500 page. *)
Definition dispatch_view (req : Request) (w : World) : Response * World :=
  match predict_view req w with
  | (inr resp, w') => (resp, w')
  | (inl _, w') => (mkResponse InternalServerError 500, w')
  end.

Fixpoint serve_view (reqs : list Request) (w : World) : list Response * World :=
  match reqs with
  | [] => ([], w)
  | req :: rest =>
      let '(resp, w') := dispatch_view req w in
      let '(resps, w'') := serve_view rest w' in
      (resp :: resps, w'')
  end.
End View.

(** * The date mapping function *)

(** The first instant of the base date of the module. *)
Example start_date_ordinal : toordinal (START_DATE module_config) = 735599.
Proof. reflexivity. Qed.

Example ord2ymd_leap_day : Calendar._ord2ymd (Calendar._ymd2ord 2016 2 29) = (2016, 2, 29).
Proof. reflexivity. Qed.

Example ord2ymd_year_end : Calendar._ord2ymd (Calendar._ymd2ord 2015 12 31) = (2015, 12, 31).
Proof. reflexivity. Qed.

Example strftime_pads :
  strftime (mkDatetime 2016 3 4 5 6 7 0) "%Y-%m-%d %H:%M:%S" = "2016-03-04 05:06:07".
Proof. reflexivity. Qed.

(** C1. For a sample index at least 0, a sequence length at least 1 and a
    horizon at least 1, the hour offsets of [get_sample_date_range] satisfy:
    input end minus input start is [SEQ_LEN - 1], prediction end minus
    prediction start is [HORIZONS - 1], the prediction starts one hour after
    the input ends, and so input start <= input end < prediction start <=
    prediction end. *)
Theorem offsets_spacing (cfg : Config) (sample_index : Z) :
  0 <= sample_index -> 1 <= SEQ_LEN cfg -> 1 <= HORIZONS cfg ->
  input_end_hour_offset cfg sample_index - input_start_hour_offset sample_index
    = SEQ_LEN cfg - 1
  /\ pred_end_hour_offset cfg sample_index - pred_start_hour_offset cfg sample_index
    = HORIZONS cfg - 1
  /\ pred_start_hour_offset cfg sample_index
    = input_end_hour_offset cfg sample_index + 1
  /\ input_start_hour_offset sample_index <= input_end_hour_offset cfg sample_index
  /\ input_end_hour_offset cfg sample_index < pred_start_hour_offset cfg sample_index
  /\ pred_start_hour_offset cfg sample_index <= pred_end_hour_offset cfg sample_index.
Proof.
  intros Hi HL HH.
  unfold pred_end_hour_offset, pred_start_hour_offset,
    input_end_hour_offset, input_start_hour_offset.
  repeat split; lia.
Qed.

Lemma offsets_spacing_witness :
  (0 <= 17 /\ 1 <= SEQ_LEN module_config /\ 1 <= HORIZONS module_config)
  /\ input_end_hour_offset module_config 17 - input_start_hour_offset 17 = 5
  /\ pred_end_hour_offset module_config 17 - pred_start_hour_offset module_config 17 = 2
  /\ pred_start_hour_offset module_config 17 = input_end_hour_offset module_config 17 + 1
  /\ input_start_hour_offset 17 <= input_end_hour_offset module_config 17
  /\ input_end_hour_offset module_config 17 < pred_start_hour_offset module_config 17
  /\ pred_start_hour_offset module_config 17 <= pred_end_hour_offset module_config 17.
Proof.
  split; [simpl; lia |].
  apply (offsets_spacing module_config 17); simpl; lia.
Defined.

(** C2, as stated, fails: with the base date 2015-01-01T00:00:00, L = 6 and
    H = 3, sample 17 is not mapped to the record whose [date] is
    "2015-01-02" and whose [full_start_date] is "2015-01-02 17:00:00". *)
Lemma sample17_expected_refuted :
  get_sample_date_range module_config 17 (START_DATE module_config)
    <> inr sample17_expected.
Proof. vm_compute. discriminate. Qed.

(** C2, amended. With the base date 2015-01-01T00:00:00, L = 6 and H = 3,
    sample 17 gives inputStart "17:00:00", inputEnd "22:00:00", predStart
    "23:00:00", predEnd "01:00:00", date "2015-01-01" and full_start_date
    "2015-01-01 17:00:00": seventeen hours after midnight is still the
    first of January. *)
Theorem sample17_time_window :
  get_sample_date_range module_config 17 (START_DATE module_config)
    = inr {| inputStart := "17:00:00";
             inputEnd := "22:00:00";
             predStart := "23:00:00";
             predEnd := "01:00:00";
             date := "2015-01-01";
             full_start_date := "2015-01-01 17:00:00" |}.
Proof. vm_compute. reflexivity. Qed.

(** *** The function returns on the whole range of the calendar *)

Lemma timedelta_normalize_seconds (d s : Z) :
  timedelta_normalize d s 0 = mkDelta (d + s / 86400) (s mod 86400) 0.
Proof.
  unfold timedelta_normalize, divmod.
  change (24 * 3600) with 86400.
  change (0 / 1000000) with 0. change (0 mod 1000000) with 0.
  change (0 / 86400) with 0. change (0 mod 86400) with 0.
  rewrite !Z.add_0_r.
  assert (Hs : 0 <= s mod 86400 < 86400) by (apply Z.mod_pos_bound; lia).
  rewrite (Z.div_small (s mod 86400)) by lia.
  rewrite (Z.mod_small (s mod 86400)) by lia.
  rewrite !Z.add_0_r. reflexivity.
Qed.

Lemma hours_as_seconds (h : Z) :
  (h * 3600) / 86400 = h / 24 /\ (h * 3600) mod 86400 = (h mod 24) * 3600.
Proof.
  change 86400 with (24 * 3600). split.
  - apply Z.div_mul_cancel_r; lia.
  - rewrite Z.mul_mod_distr_r by lia. reflexivity.
Qed.

(** [timedelta(hours=h)], in full. *)
Lemma timedelta_hours_spec (h : Z) :
  timedelta_hours h
    = if (h / 24 <? -2147483648) || (2147483647 <? h / 24) then
        inl (mkExn "OverflowError" "Python int too large to convert to C int")
      else if 999999999 <? Z.abs (h / 24) then
        inl (mkExn "OverflowError"
               ("days=" +:+ pretty (h / 24) +:+ "; must have magnitude <= 999999999"))
      else inr (mkDelta (h / 24) (h mod 24 * 3600) 0).
Proof.
  destruct (hours_as_seconds h) as [Hdiv Hmod].
  unfold timedelta_hours, timedelta_new.
  rewrite timedelta_normalize_seconds, Hdiv, Hmod, Z.add_0_l.
  reflexivity.
Qed.

(** Adding [h] hours to the base date of the module, in full. *)
Lemma plus_hours_spec (h : Z) :
  plus_hours (START_DATE module_config) h
    = if (h / 24 <? -2147483648) || (2147483647 <? h / 24) then
        inl (mkExn "OverflowError" "Python int too large to convert to C int")
      else if 999999999 <? Z.abs (h / 24) then
        inl (mkExn "OverflowError"
               ("days=" +:+ pretty (h / 24) +:+ "; must have magnitude <= 999999999"))
      else if (0 <? 735599 + h / 24) && (735599 + h / 24 <=? 3652059) then
        let '(y, m, d) := Calendar._ord2ymd (735599 + h / 24) in
        inr (mkDatetime y m d (h mod 24) 0 0 0)
      else inl (mkExn "OverflowError" "date value out of range").
Proof.
  assert (Hr : 0 <= h mod 24 < 24) by (apply Z.mod_pos_bound; lia).
  assert (Hsmall : 0 <= h mod 24 * 3600 < 86400) by lia.
  unfold plus_hours. rewrite timedelta_hours_spec.
  destruct ((h / 24 <? -2147483648) || (2147483647 <? h / 24)); [reflexivity |].
  destruct (999999999 <? Z.abs (h / 24)); [reflexivity |].
  cbn [exc_bind]. unfold datetime_add.
  change (toordinal (START_DATE module_config)) with 735599.
  cbn [START_DATE module_config dt_hour dt_minute dt_second dt_microsecond
       td_days td_seconds td_microseconds].
  change (0 * 3600 + 0 * 60 + 0) with 0. change (0 + 0) with 0.
  rewrite Z.add_0_l, timedelta_normalize_seconds.
  rewrite (Z.div_small (h mod 24 * 3600)) by lia.
  rewrite (Z.mod_small (h mod 24 * 3600)) by lia.
  rewrite Z.add_0_r.
  cbn [td_days td_seconds td_microseconds]. unfold divmod.
  rewrite Z.div_mul by lia. rewrite Z.mod_mul by lia.
  change (0 / 60) with 0. change (0 mod 60) with 0.
  unfold Calendar._MAXORDINAL.
  destruct ((0 <? 735599 + h / 24) && (735599 + h / 24 <=? 3652059));
    [| reflexivity].
  destruct (Calendar._ord2ymd (735599 + h / 24)) as [[y m] d]. reflexivity.
Qed.

(** Adding [h] hours to the base date of the module succeeds as long as the
    result stays within the years 1..9999, and moves the clock to
    [h mod 24] o'clock. *)
Lemma plus_hours_total (h : Z) :
  0 <= h < 24 * (Calendar._MAXORDINAL - 735598) ->
  exists dt, plus_hours (START_DATE module_config) h = inr dt
             /\ dt_hour dt = h mod 24
             /\ dt_minute dt = 0 /\ dt_second dt = 0.
Proof.
  unfold Calendar._MAXORDINAL. intros Hh.
  assert (Hq : 0 <= h / 24 < 2916461).
  { split; [apply Z.div_pos; lia | apply Z.div_lt_upper_bound; lia]. }
  rewrite plus_hours_spec.
  destruct (Z.ltb_spec (h / 24) (-2147483648)); [lia |].
  destruct (Z.ltb_spec 2147483647 (h / 24)); [lia |]. cbn [orb].
  destruct (Z.ltb_spec 999999999 (Z.abs (h / 24))); [lia |].
  destruct (Z.ltb_spec 0 (735599 + h / 24)); [| lia].
  destruct (Z.leb_spec (735599 + h / 24) 3652059); [| lia]. cbn [andb].
  destruct (Calendar._ord2ymd (735599 + h / 24)) as [[y m] d].
  eexists. split; [reflexivity |]. cbn. auto.
Qed.

Lemma get_sample_date_range_total (cfg : Config) (sample_index : Z) :
  START_DATE cfg = START_DATE module_config ->
  0 <= sample_index -> 1 <= SEQ_LEN cfg -> 1 <= HORIZONS cfg ->
  sample_index + SEQ_LEN cfg + HORIZONS cfg - 1
    < 24 * (Calendar._MAXORDINAL - 735598) ->
  exists tw, get_sample_date_range cfg sample_index (START_DATE cfg) = inr tw.
Proof.
  intros -> Hi HL HH Hmax.
  unfold get_sample_date_range, input_start_time, input_end_time,
    pred_start_time, pred_end_time.
  destruct (plus_hours_total (input_start_hour_offset sample_index))
    as (t1 & -> & _); [unfold input_start_hour_offset; lia |].
  destruct (plus_hours_total (input_end_hour_offset cfg sample_index))
    as (t2 & -> & _); [unfold input_end_hour_offset; lia |].
  destruct (plus_hours_total (pred_start_hour_offset cfg sample_index))
    as (t3 & -> & _); [unfold pred_start_hour_offset; lia |].
  destruct (plus_hours_total (pred_end_hour_offset cfg sample_index))
    as (t4 & -> & _);
    [unfold pred_end_hour_offset, pred_start_hour_offset; lia |].
  cbn [exc_bind exc_ret]. eexists. reflexivity.
Qed.

(** Past the year 9999 the function raises instead. *)
Example get_sample_date_range_overflow :
  get_sample_date_range module_config 69995056 (START_DATE module_config)
    = inl (mkExn "OverflowError" "date value out of range").
Proof. vm_compute. reflexivity. Qed.

Example get_sample_date_range_last :
  pred_end_time module_config 69995055 (START_DATE module_config)
    = inr (mkDatetime 9999 12 31 23 0 0 0).
Proof. vm_compute. reflexivity. Qed.


(** C10. The prediction window of sample 17 (L = 6, H = 3, base date
    2015-01-01T00:00:00) crosses midnight: it starts on 2015-01-01 at 23:00
    and ends on 2015-01-02 at 01:00, and is rendered as predStart
    "23:00:00", predEnd "01:00:00", so the rendered end is an earlier clock
    time than the rendered start.  The record does not determine the day the
    window ends: with a horizon of 27 the very same record is produced,
    while the window ends on 2015-01-03. *)
Theorem prediction_window_crosses_midnight :
  (exists tw,
     get_sample_date_range module_config 17 (START_DATE module_config) = inr tw
     /\ predStart tw = "23:00:00" /\ predEnd tw = "01:00:00"
     /\ String.ltb (predEnd tw) (predStart tw) = true)
  /\ pred_start_time module_config 17 (START_DATE module_config)
     = inr (mkDatetime 2015 1 1 23 0 0 0)
  /\ pred_end_time module_config 17 (START_DATE module_config)
     = inr (mkDatetime 2015 1 2 1 0 0 0)
  /\ get_sample_date_range long_horizon_config 17 (START_DATE long_horizon_config)
     = get_sample_date_range module_config 17 (START_DATE module_config)
  /\ pred_end_time long_horizon_config 17 (START_DATE long_horizon_config)
     = inr (mkDatetime 2015 1 3 1 0 0 0).
Proof.
  split.
  - eexists. split; [vm_compute; reflexivity |].
    cbn [predStart predEnd]. repeat split; reflexivity.
  - repeat split; vm_compute; reflexivity.
Qed.

(** * The request handler *)

Section HandlerFacts.
Context {R : Runtime}.

Lemma read_bounds_run (req : Request) (w : World) :
  read_bounds req w = (bounds_outcome req, body_read w).
Proof.
  unfold read_bounds, bounds_outcome, read_json, log, py_bind, py_lift, py_ret,
    body_read.
  destruct (request_json req) as [e | data]; cbn [exc_bind]; [reflexivity |].
  destruct (py_get data "latMin") as [e | v]; cbn [exc_bind]; [reflexivity |].
  destruct (py_float v) as [e | lat]; cbn [exc_bind]; [reflexivity |].
  destruct (py_get data "lonMin") as [e | v']; cbn [exc_bind]; [reflexivity |].
  destruct (py_float v') as [e | lon]; reflexivity.
Qed.

Lemma field_numeric_dict (req : Request) (key : string) :
  field_numeric req key = true ->
  exists d f, request_json req = inr (PDict d)
              /\ py_float (default PNone (d !! key)) = inr f.
Proof.
  unfold field_numeric.
  destruct (request_json req) as [e | data]; [discriminate |].
  destruct data; try discriminate.
  destruct (d !! key) as [v |] eqn:Hk; [| discriminate].
  destruct (py_float v) as [e | f] eqn:Hf; [discriminate |].
  intros _. exists d, f. split; [reflexivity |]. rewrite Hk. exact Hf.
Qed.

Lemma field_numeric_false_dict (d : gmap string PyVal) (key : string) :
  field_numeric (mkRequest (inr (PDict d))) key = false ->
  exists e, py_float (default PNone (d !! key)) = inl e.
Proof.
  unfold field_numeric. cbn [request_json].
  destruct (d !! key) as [v |]; cbn [default].
  - destruct (py_float v) as [e | f] eqn:Hf; [| discriminate].
    intros _. exists e. exact Hf.
  - intros _. cbn. eauto.
Qed.

Lemma bounds_outcome_accepts (req : Request) :
  field_numeric req "latMin" = true -> field_numeric req "lonMin" = true ->
  exists p, bounds_outcome req = inr p.
Proof.
  intros Hlat Hlon.
  destruct (field_numeric_dict _ _ Hlat) as (d & lat & Hd & Hflat).
  destruct (field_numeric_dict _ _ Hlon) as (d' & lon & Hd' & Hflon).
  rewrite Hd in Hd'. injection Hd' as <-.
  exists (lat, lon). unfold bounds_outcome. rewrite Hd.
  cbn [exc_bind py_get exc_ret]. rewrite Hflat. cbn [exc_bind].
  rewrite Hflon. reflexivity.
Qed.

Lemma bounds_outcome_rejects (req : Request) :
  field_numeric req "latMin" = false \/ field_numeric req "lonMin" = false ->
  exists e, bounds_outcome req = inl e /\ offending req e.
Proof.
  intros Hbad. unfold bounds_outcome.
  destruct req as [[e | data]]; cbn [request_json exc_bind].
  { exists e. split; [reflexivity | by apply offending_body]. }
  destruct (py_get data "latMin") as [e | v] eqn:Hget.
  { exists e. split; [reflexivity |].
    by apply (offending_not_dict _ _ data). }
  destruct data; try discriminate. cbn in Hget. injection Hget as <-.
  cbn [exc_bind].
  destruct (py_float (default PNone (d !! "latMin"))) as [e | lat] eqn:Hlat.
  { exists e. split; [reflexivity |]. by apply (offending_latMin _ _ d). }
  cbn [exc_bind py_get exc_ret].
  destruct (py_float (default PNone (d !! "lonMin"))) as [e | lon] eqn:Hlon.
  { exists e. split; [reflexivity |]. by apply (offending_lonMin _ _ d lat). }
  exfalso. destruct Hbad as [Hbad | Hbad];
    apply field_numeric_false_dict in Hbad as [e He]; congruence.
Qed.

Section Route.
Variable cfg : Config.

Lemma predict_rejects (m : keras_model) (req : Request) (w : World) (e : PyExn) :
  bounds_outcome req = inl e ->
  predict cfg (Some m) req w
    = (inr (mkResponse (ErrorBody ("Invalid input coordinates: " +:+ exn_str e)) 400),
       body_read w).
Proof.
  intros Hb. unfold predict, py_bind, py_try.
  rewrite read_bounds_run, Hb. reflexivity.
Qed.

Lemma predict_accepts
    (m : keras_model) (req : Request) (w : World)
    (p : pyfloat * pyfloat) (td : TimeWindow) :
  bounds_outcome req = inr p ->
  get_sample_date_range cfg (FIXED_SAMPLE_INDEX cfg) (START_DATE cfg) = inr td ->
  predict cfg (Some m) req w
    = (inr match inference_outcome
                  (fst (model_predict m (drawn_input cfg w) (backend w))) with
           | inl e =>
               mkResponse (ErrorBody ("Model inference failed: " +:+ exn_str e)) 500
           | inr prediction_list =>
               mkResponse (ResultBody prediction_list td) 200
           end,
       inferred cfg m w).
Proof.
  intros Hb Htd. unfold predict, py_bind, py_try.
  rewrite read_bounds_run, Hb. unfold py_lift at 1. rewrite Htd.
  unfold make_input_tensor, np_random_rand, run_inference, call_predict,
    log, py_bind, py_ret, py_lift, inferred, drawn_input, inference_outcome,
    body_read.
  cbn [rng backend calls].
  destruct (random_rand (input_shape cfg) (rng w)) as [a g]. cbn [fst snd rng backend calls].
  destruct (model_predict m (astype_float32 a) (backend w)) as [[e | out] b];
    cbn [fst snd exc_bind]; [reflexivity |].
  destruct (index0 out) as [e | first]; reflexivity.
Qed.

(** The handler looks at the request through the first [try] block only. *)
Lemma predict_via_bounds
    (model : option keras_model) (req req' : Request) (w : World) :
  bounds_outcome req = bounds_outcome req' ->
  predict cfg model req w = predict cfg model req' w.
Proof.
  intros Hb. unfold predict. destruct model as [m |]; [| reflexivity].
  unfold py_bind, py_try. rewrite !read_bounds_run, Hb. reflexivity.
Qed.

Lemma bounds_outcome_dict (d d' : gmap string PyVal) :
  d' !! "latMin" = d !! "latMin" -> d' !! "lonMin" = d !! "lonMin" ->
  bounds_outcome (mkRequest (inr (PDict d')))
    = bounds_outcome (mkRequest (inr (PDict d))).
Proof.
  intros Hlat Hlon. unfold bounds_outcome. cbn [request_json exc_bind py_get exc_ret].
  rewrite Hlat, Hlon. reflexivity.
Qed.

(** A success response carries the window of the fixed sample. *)
Lemma result_time_details
    (model : option keras_model) (req : Request) (w w' : World)
    (resp : Response) (p : pylist) (td : TimeWindow) :
  predict cfg model req w = (inr resp, w') ->
  body resp = ResultBody p td ->
  get_sample_date_range cfg (FIXED_SAMPLE_INDEX cfg) (START_DATE cfg) = inr td.
Proof.
  destruct model as [m |].
  2:{ unfold predict, py_ret. intros [= <- _]. discriminate. }
  destruct (bounds_outcome req) as [e | bounds] eqn:Hb.
  { rewrite (predict_rejects _ _ _ _ Hb). intros [= <- _]. discriminate. }
  destruct (get_sample_date_range cfg (FIXED_SAMPLE_INDEX cfg) (START_DATE cfg))
    as [e | td'] eqn:Htd.
  { unfold predict, py_bind, py_try.
    rewrite read_bounds_run, Hb. unfold py_lift at 1. rewrite Htd. discriminate. }
  rewrite (predict_accepts _ _ _ _ _ Hb Htd).
  destruct (inference_outcome _) as [e | l]; intros [= <- _]; cbn [body];
    [discriminate | congruence].
Qed.

Lemma serve_length (model : option keras_model) (reqs : list Request) (w : World) :
  length (fst (serve cfg model reqs w)) = length reqs.
Proof.
  revert w. induction reqs as [| req rest IH]; intros w; [reflexivity |].
  cbn [serve]. destruct (dispatch cfg model req w) as [resp w1].
  specialize (IH w1). destruct (serve cfg model rest w1) as [resps w2].
  cbn [fst length] in *. by rewrite IH.
Qed.

End Route.
End HandlerFacts.

Lemma fixed_sample_window :
  get_sample_date_range module_config (FIXED_SAMPLE_INDEX module_config)
    (START_DATE module_config) = inr module_time_details.
Proof. vm_compute. reflexivity. Qed.

(** C3. When the model failed to load ([model] is [None]), every request,
    whatever its body, is answered with the same 500 response, and the
    handler leaves the process state untouched: the body is not read, no
    bound is validated, nothing is drawn and the model is not called. *)
Theorem backend_unavailable
    {R : Runtime} (cfg : Config) (req : Request) (w : World) :
  predict cfg None req w = (inr unavailable, w)
  /\ dispatch cfg None req w = (unavailable, w)
  /\ status unavailable = 500
  /\ error_of unavailable = Some "Model failed to load on server startup."
  /\ calls (snd (predict cfg None req w)) = calls w
  /\ predict_calls (snd (predict cfg None req w)) = predict_calls w.
Proof.
  unfold dispatch, predict, py_ret. cbn [snd]. repeat split; reflexivity.
Qed.

(** C4. With the model loaded, a request whose [latMin] is absent or is not
    accepted by [float] is answered with a 400 error response, and
    [model.predict] is not called: the only external call made is the read
    of the body. *)
Theorem malformed_latMin_rejected
    {R : Runtime} (cfg : Config) (m : keras_model) (req : Request) (w : World) :
  field_numeric req "latMin" = false ->
  exists msg w',
    predict cfg (Some m) req w = (inr (mkResponse (ErrorBody msg) 400), w')
    /\ calls w' = EvRequestJson :: calls w
    /\ predict_calls w' = predict_calls w
    /\ backend w' = backend w.
Proof.
  intros Hbad.
  destruct (bounds_outcome_rejects req (or_introl Hbad)) as (e & Hb & _).
  exists ("Invalid input coordinates: " +:+ exn_str e), (body_read w).
  split; [by apply predict_rejects |].
  repeat split; reflexivity.
Qed.

Lemma malformed_latMin_rejected_witness :
  field_numeric (R := Stub.runtime) Stub.req_bad_lat "latMin" = false
  /\ exists msg w',
       predict (R := Stub.runtime) module_config (Some Stub.Healthy)
               Stub.req_bad_lat Stub.world0
         = (inr (mkResponse (ErrorBody msg) 400), w')
       /\ calls w' = EvRequestJson :: calls Stub.world0
       /\ predict_calls w' = predict_calls Stub.world0
       /\ backend w' = backend Stub.world0.
Proof.
  split; [vm_compute; reflexivity |].
  apply (malformed_latMin_rejected (R := Stub.runtime) module_config
           Stub.Healthy Stub.req_bad_lat Stub.world0).
  vm_compute. reflexivity.
Defined.

(** C5, as stated, fails: the empty body [{}] lacks every bounding-box
    field, and the 400 response it gets does not name [latMin]. *)
Lemma error_names_fields_refuted :
  ~ error_names_fields (R := Stub.runtime) module_config Stub.Healthy
      Stub.req_empty Stub.world0.
Proof.
  intros Hclaim.
  destruct Hclaim as (resp & w' & Hrun & _ & Hnames).
  { exists "latMin". split; [left; reflexivity | vm_compute; reflexivity]. }
  destruct (Hnames "latMin") as (msg & Herr & Hsub);
    [left; reflexivity | vm_compute; reflexivity |].
  vm_compute in Hrun. injection Hrun as <- _.
  vm_compute in Herr. injection Herr as <-.
  vm_compute in Hsub. discriminate.
Qed.

(** C5, amended. With the model loaded, a request whose [latMin] or
    [lonMin] is missing or not accepted by [float] is answered with a 400
    whose error string is "Invalid input coordinates: " followed by the text
    of the exception that rejected it: the one raised by reading the body,
    by the lookup on a body that is no dict, or by [float] on the value of
    [latMin] or [lonMin].  For a dict body without [latMin] that text names
    the type [NoneType], not the field. *)
Theorem invalid_input_reports_exception
    {R : Runtime} (cfg : Config) (m : keras_model) (req : Request) (w : World) :
  field_numeric req "latMin" = false \/ field_numeric req "lonMin" = false ->
  (exists e w',
     offending req e
     /\ predict cfg (Some m) req w
        = (inr (mkResponse
                  (ErrorBody ("Invalid input coordinates: " +:+ exn_str e)) 400),
           w'))
  /\ forall d, request_json req = inr (PDict d) -> d !! "latMin" = None ->
       fst (predict cfg (Some m) req w)
         = inr (mkResponse
                  (ErrorBody
                     "Invalid input coordinates: float() argument must be a string or a real number, not 'NoneType'")
                  400).
Proof.
  intros Hbad. split.
  - destruct (bounds_outcome_rejects req Hbad) as (e & Hb & Hoff).
    exists e, (body_read w). split; [exact Hoff | by apply predict_rejects].
  - intros d Hd Hmiss.
    assert (Hb : bounds_outcome req
                 = inl (mkExn "TypeError"
                          "float() argument must be a string or a real number, not 'NoneType'")).
    { unfold bounds_outcome. rewrite Hd. cbn [exc_bind py_get exc_ret].
      rewrite Hmiss. reflexivity. }
    rewrite (predict_rejects cfg m req w _ Hb). reflexivity.
Qed.

Lemma invalid_input_reports_exception_witness :
  (field_numeric (R := Stub.runtime) Stub.req_empty "latMin" = false
   \/ field_numeric (R := Stub.runtime) Stub.req_empty "lonMin" = false)
  /\ exists e w',
       offending (R := Stub.runtime) Stub.req_empty e
       /\ predict (R := Stub.runtime) module_config (Some Stub.Healthy)
                  Stub.req_empty Stub.world0
          = (inr (mkResponse
                    (ErrorBody ("Invalid input coordinates: " +:+ exn_str e)) 400),
             w').
Proof.
  split; [left; vm_compute; reflexivity |].
  apply (invalid_input_reports_exception (R := Stub.runtime) module_config
           Stub.Healthy Stub.req_empty Stub.world0).
  left. vm_compute. reflexivity.
Defined.

(** C6. For a valid request on which [model.predict] raises, the handler
    answers 500 with the error string "Model inference failed: " followed by
    the text of the exception; the model has been called once, with the
    tensor drawn for this request; and the server goes on: the requests that
    follow are each answered, from the state this request left. *)
Theorem inference_failure_reported
    {R : Runtime} (m : keras_model) (req : Request) (w : World) (e : PyExn) :
  field_numeric req "latMin" = true ->
  field_numeric req "lonMin" = true ->
  fst (model_predict m (drawn_input module_config w) (backend w)) = inl e ->
  exists resp w',
    predict module_config (Some m) req w = (inr resp, w')
    /\ resp = mkResponse (ErrorBody ("Model inference failed: " +:+ exn_str e)) 500
    /\ predict_calls w' = drawn_input module_config w :: predict_calls w
    /\ forall rest : list Request,
         exists resps w'',
           serve module_config (Some m) rest w' = (resps, w'')
           /\ serve module_config (Some m) (req :: rest) w = (resp :: resps, w'')
           /\ length resps = length rest.
Proof.
  intros Hlat Hlon Hraise.
  destruct (bounds_outcome_accepts req Hlat Hlon) as (p & Hb).
  pose proof (predict_accepts module_config m req w p _ Hb fixed_sample_window)
    as Hrun.
  rewrite Hraise in Hrun. cbn [inference_outcome exc_bind] in Hrun.
  eexists _, (inferred module_config m w).
  split; [exact Hrun |]. split; [reflexivity |]. split; [reflexivity |].
  intros rest.
  destruct (serve module_config (Some m) rest (inferred module_config m w))
    as [resps w''] eqn:Hrest.
  exists resps, w''. split; [reflexivity |]. split.
  - cbn [serve]. unfold dispatch. rewrite Hrun, Hrest. reflexivity.
  - pose proof (serve_length module_config (Some m) rest
                  (inferred module_config m w)) as Hlen.
    rewrite Hrest in Hlen. exact Hlen.
Qed.

Lemma inference_failure_reported_witness :
  (field_numeric (R := Stub.runtime) Stub.req_full "latMin" = true
   /\ field_numeric (R := Stub.runtime) Stub.req_full "lonMin" = true
   /\ fst (model_predict (Runtime := Stub.runtime) (Stub.Failing "out of memory")
             (drawn_input module_config Stub.world0) (backend Stub.world0))
      = inl (mkExn "RuntimeError" "out of memory"))
  /\ exists resp w',
       predict (R := Stub.runtime) module_config
               (Some (Stub.Failing "out of memory")) Stub.req_full Stub.world0
         = (inr resp, w')
       /\ resp = mkResponse (ErrorBody "Model inference failed: out of memory") 500
       /\ predict_calls w' = drawn_input module_config Stub.world0 :: []
       /\ forall rest : list (@Request Stub.runtime),
            exists resps w'',
              serve (R := Stub.runtime) module_config
                    (Some (Stub.Failing "out of memory")) rest w'
                = (resps, w'')
              /\ serve (R := Stub.runtime) module_config
                       (Some (Stub.Failing "out of memory"))
                       (Stub.req_full :: rest) Stub.world0
                 = (resp :: resps, w'')
              /\ length resps = length rest.
Proof.
  split; [repeat split; vm_compute; reflexivity |].
  apply (inference_failure_reported (R := Stub.runtime)
           (Stub.Failing "out of memory") Stub.req_full Stub.world0
           (mkExn "RuntimeError" "out of memory"));
    vm_compute; reflexivity.
Defined.

(** C8. The [time_details] of a success response do not depend on the
    bounds in the request: in any two success responses, to any two
    requests in any two states, they are the same record, the window of the
    fixed sample 17 counted from the fixed base date. *)
Theorem time_details_independent_of_bounds
    {R : Runtime} (model : option keras_model)
    (req1 req2 : Request) (w1 w2 w1' w2' : World)
    (resp1 resp2 : Response) (p1 p2 : pylist) (td1 td2 : TimeWindow) :
  predict module_config model req1 w1 = (inr resp1, w1') ->
  body resp1 = ResultBody p1 td1 ->
  predict module_config model req2 w2 = (inr resp2, w2') ->
  body resp2 = ResultBody p2 td2 ->
  td1 = td2
  /\ get_sample_date_range module_config 17 (mkDatetime 2015 1 1 0 0 0 0) = inr td1
  /\ td1 = {| inputStart := "17:00:00";
              inputEnd := "22:00:00";
              predStart := "23:00:00";
              predEnd := "01:00:00";
              date := "2015-01-01";
              full_start_date := "2015-01-01 17:00:00" |}.
Proof.
  intros Hrun1 Hbody1 Hrun2 Hbody2.
  pose proof (result_time_details module_config _ _ _ _ _ _ _ Hrun1 Hbody1) as H1.
  pose proof (result_time_details module_config _ _ _ _ _ _ _ Hrun2 Hbody2) as H2.
  cbn [FIXED_SAMPLE_INDEX START_DATE module_config] in H1, H2.
  split; [congruence |]. split; [exact H1 |].
  pose proof fixed_sample_window as H17.
  cbn [FIXED_SAMPLE_INDEX START_DATE module_config] in H17.
  unfold module_time_details in H17. congruence.
Qed.

Lemma time_details_independent_of_bounds_witness :
  let answer := Stub.Arr [Stub.Scalar 0; Stub.Scalar 0; Stub.Scalar 0] in
  let ok := mkResponse (@ResultBody Stub.runtime answer module_time_details) 200 in
  let w1 := snd (predict (R := Stub.runtime) module_config (Some Stub.Healthy)
                         Stub.req_full Stub.world0) in
  let w2 := snd (predict (R := Stub.runtime) module_config (Some Stub.Healthy)
                         Stub.req_partial w1) in
  (predict (R := Stub.runtime) module_config (Some Stub.Healthy)
           Stub.req_full Stub.world0 = (inr ok, w1)
   /\ predict (R := Stub.runtime) module_config (Some Stub.Healthy)
              Stub.req_partial w1 = (inr ok, w2))
  /\ module_time_details = module_time_details
  /\ get_sample_date_range module_config 17 (mkDatetime 2015 1 1 0 0 0 0)
     = inr module_time_details
  /\ module_time_details
     = {| inputStart := "17:00:00";
          inputEnd := "22:00:00";
          predStart := "23:00:00";
          predEnd := "01:00:00";
          date := "2015-01-01";
          full_start_date := "2015-01-01 17:00:00" |}.
Proof.
  intros answer ok w1 w2.
  split; [split; vm_compute; reflexivity |].
  apply (time_details_independent_of_bounds (R := Stub.runtime)
           (Some Stub.Healthy) Stub.req_full Stub.req_partial
           Stub.world0 w1 w1 w2 ok ok answer answer
           module_time_details module_time_details);
    [vm_compute; reflexivity | reflexivity | vm_compute; reflexivity | reflexivity].
Defined.



(** Adding, replacing or removing [latMax] or [lonMax] in a body leaves the
    outcome of the handler as it was, for any model and in any state. *)
Lemma predict_ignores_other_keys
    {R : Runtime} (cfg : Config) (model : option keras_model)
    (d : gmap string PyVal) (key : string) (v : PyVal) (w : World) :
  key <> "latMin" -> key <> "lonMin" ->
  predict cfg model (mkRequest (inr (PDict (<[key := v]> d)))) w
    = predict cfg model (mkRequest (inr (PDict d))) w
  /\ predict cfg model (mkRequest (inr (PDict (delete key d)))) w
     = predict cfg model (mkRequest (inr (PDict d))) w.
Proof.
  intros Hlat Hlon. split; apply predict_via_bounds, bounds_outcome_dict.
  - by rewrite lookup_insert_ne.
  - by rewrite lookup_insert_ne.
  - by rewrite lookup_delete_ne.
  - by rewrite lookup_delete_ne.
Qed.

Example predict_ignores_latMax
    {R : Runtime} (model : option keras_model)
    (d : gmap string PyVal) (v : PyVal) (w : World) :
  predict module_config model (mkRequest (inr (PDict (<["latMax" := v]> d)))) w
    = predict module_config model (mkRequest (inr (PDict d))) w.
Proof. by apply predict_ignores_other_keys. Qed.

(** * Further properties of the date mapping function *)

Lemma hour_in_calendar_days (h : Z) :
  hour_in_calendar h <-> 0 < 735599 + h / 24 <= 3652059.
Proof.
  unfold hour_in_calendar.
  pose proof (Z.div_mod h 24 ltac:(lia)) as Hdm.
  pose proof (Z.mod_pos_bound h 24 ltac:(lia)) as Hr.
  lia.
Qed.

Lemma plus_hours_in_calendar (h : Z) :
  hour_in_calendar h ->
  plus_hours (START_DATE module_config) h
    = let '(y, m, d) := Calendar._ord2ymd (735599 + h / 24) in
      inr (mkDatetime y m d (h mod 24) 0 0 0).
Proof.
  intros Hin. apply hour_in_calendar_days in Hin.
  rewrite plus_hours_spec.
  destruct (Z.ltb_spec (h / 24) (-2147483648)); [lia |].
  destruct (Z.ltb_spec 2147483647 (h / 24)); [lia |]. cbn [orb].
  destruct (Z.ltb_spec 999999999 (Z.abs (h / 24))); [lia |].
  destruct (Z.ltb_spec 0 (735599 + h / 24)); [| lia].
  destruct (Z.leb_spec (735599 + h / 24) 3652059); [| lia].
  reflexivity.
Qed.

Lemma plus_hours_outside_calendar (h : Z) :
  ~ hour_in_calendar h ->
  exists e, plus_hours (START_DATE module_config) h = inl e
            /\ exn_class e = "OverflowError".
Proof.
  intros Hout. rewrite hour_in_calendar_days in Hout.
  rewrite plus_hours_spec.
  destruct ((h / 24 <? -2147483648) || (2147483647 <? h / 24)); [eauto |].
  destruct (999999999 <? Z.abs (h / 24)); [eauto |].
  destruct (Z.ltb_spec 0 (735599 + h / 24));
    destruct (Z.leb_spec (735599 + h / 24) 3652059); cbn [andb]; eauto.
  lia.
Qed.

Lemma hour_in_calendar_dec (h : Z) : {hour_in_calendar h} + {~ hour_in_calendar h}.
Proof.
  unfold hour_in_calendar.
  destruct (Z_le_dec (-17654352) h); [| right; lia].
  destruct (Z_lt_dec h 69995064); [left | right]; lia.
Qed.

Lemma date_range_returns_iff (cfg : Config) (sample_index : Z) :
  START_DATE cfg = START_DATE module_config ->
  (exists tw, get_sample_date_range cfg sample_index (START_DATE cfg) = inr tw)
  <-> (hour_in_calendar (input_start_hour_offset sample_index)
       /\ hour_in_calendar (input_end_hour_offset cfg sample_index)
       /\ hour_in_calendar (pred_start_hour_offset cfg sample_index)
       /\ hour_in_calendar (pred_end_hour_offset cfg sample_index)).
Proof.
  intros ->.
  unfold get_sample_date_range, input_start_time, input_end_time,
    pred_start_time, pred_end_time.
  destruct (hour_in_calendar_dec (input_start_hour_offset sample_index)) as [H1 | H1].
  2:{ destruct (plus_hours_outside_calendar _ H1) as (e & -> & _).
      cbn [exc_bind]. split; [intros [tw Htw]; discriminate | tauto]. }
  rewrite (plus_hours_in_calendar _ H1).
  destruct (Calendar._ord2ymd _) as [[y1 m1] d1]. cbn [exc_bind].
  destruct (hour_in_calendar_dec (input_end_hour_offset cfg sample_index)) as [H2 | H2].
  2:{ destruct (plus_hours_outside_calendar _ H2) as (e & -> & _).
      cbn [exc_bind]. split; [intros [tw Htw]; discriminate | tauto]. }
  rewrite (plus_hours_in_calendar _ H2).
  destruct (Calendar._ord2ymd _) as [[y2 m2] d2]. cbn [exc_bind].
  destruct (hour_in_calendar_dec (pred_start_hour_offset cfg sample_index)) as [H3 | H3].
  2:{ destruct (plus_hours_outside_calendar _ H3) as (e & -> & _).
      cbn [exc_bind]. split; [intros [tw Htw]; discriminate | tauto]. }
  rewrite (plus_hours_in_calendar _ H3).
  destruct (Calendar._ord2ymd _) as [[y3 m3] d3]. cbn [exc_bind].
  destruct (hour_in_calendar_dec (pred_end_hour_offset cfg sample_index)) as [H4 | H4].
  2:{ destruct (plus_hours_outside_calendar _ H4) as (e & -> & _).
      cbn [exc_bind]. split; [intros [tw Htw]; discriminate | tauto]. }
  rewrite (plus_hours_in_calendar _ H4).
  destruct (Calendar._ord2ymd _) as [[y4 m4] d4]. cbn [exc_bind].
  split; [tauto | intros _; eexists; reflexivity].
Qed.


(** Outside the calendar the function raises [OverflowError]. *)
Lemma date_range_outside_calendar (cfg : Config) (sample_index : Z) :
  START_DATE cfg = START_DATE module_config ->
  ~ (hour_in_calendar (input_start_hour_offset sample_index)
     /\ hour_in_calendar (input_end_hour_offset cfg sample_index)
     /\ hour_in_calendar (pred_start_hour_offset cfg sample_index)
     /\ hour_in_calendar (pred_end_hour_offset cfg sample_index)) ->
  exists e, get_sample_date_range cfg sample_index (START_DATE cfg) = inl e
            /\ exn_class e = "OverflowError".
Proof.
  intros -> Hout.
  unfold get_sample_date_range, input_start_time, input_end_time,
    pred_start_time, pred_end_time.
  destruct (hour_in_calendar_dec (input_start_hour_offset sample_index)) as [H1 | H1].
  2:{ destruct (plus_hours_outside_calendar _ H1) as (e & -> & Hc). eauto. }
  rewrite (plus_hours_in_calendar _ H1).
  destruct (Calendar._ord2ymd _) as [[y1 m1] d1]. cbn [exc_bind].
  destruct (hour_in_calendar_dec (input_end_hour_offset cfg sample_index)) as [H2 | H2].
  2:{ destruct (plus_hours_outside_calendar _ H2) as (e & -> & Hc). eauto. }
  rewrite (plus_hours_in_calendar _ H2).
  destruct (Calendar._ord2ymd _) as [[y2 m2] d2]. cbn [exc_bind].
  destruct (hour_in_calendar_dec (pred_start_hour_offset cfg sample_index)) as [H3 | H3].
  2:{ destruct (plus_hours_outside_calendar _ H3) as (e & -> & Hc). eauto. }
  rewrite (plus_hours_in_calendar _ H3).
  destruct (Calendar._ord2ymd _) as [[y3 m3] d3]. cbn [exc_bind].
  destruct (hour_in_calendar_dec (pred_end_hour_offset cfg sample_index)) as [H4 | H4].
  2:{ destruct (plus_hours_outside_calendar _ H4) as (e & -> & Hc). eauto. }
  tauto.
Qed.



(** X1. Counted from the base date of the module, [get_sample_date_range]
    returns a record exactly when its four hour offsets all fall within the
    years 1..9999 of the calendar, that is between -17654352 and 69995063;
    otherwise it raises, and what it raises is an [OverflowError]. *)
Theorem get_sample_date_range_returns_iff (cfg : Config) (sample_index : Z) :
  START_DATE cfg = START_DATE module_config ->
  ((exists tw, get_sample_date_range cfg sample_index (START_DATE cfg) = inr tw)
   <-> (hour_in_calendar (input_start_hour_offset sample_index)
        /\ hour_in_calendar (input_end_hour_offset cfg sample_index)
        /\ hour_in_calendar (pred_start_hour_offset cfg sample_index)
        /\ hour_in_calendar (pred_end_hour_offset cfg sample_index)))
  /\ (forall e, get_sample_date_range cfg sample_index (START_DATE cfg) = inl e ->
        exn_class e = "OverflowError")
  /\ (~ (hour_in_calendar (input_start_hour_offset sample_index)
         /\ hour_in_calendar (input_end_hour_offset cfg sample_index)
         /\ hour_in_calendar (pred_start_hour_offset cfg sample_index)
         /\ hour_in_calendar (pred_end_hour_offset cfg sample_index)) ->
      exists e, get_sample_date_range cfg sample_index (START_DATE cfg) = inl e
                /\ exn_class e = "OverflowError").
Proof.
  intros Hstart.
  pose proof (date_range_returns_iff cfg sample_index Hstart) as Hiff.
  pose proof (date_range_outside_calendar cfg sample_index Hstart) as Hout.
  split; [exact Hiff |]. split; [| exact Hout].
  intros e He.
  destruct (hour_in_calendar_dec (input_start_hour_offset sample_index)) as [H1 | H1];
    [| destruct Hout as (e' & He' & Hc); [tauto | congruence]].
  destruct (hour_in_calendar_dec (input_end_hour_offset cfg sample_index)) as [H2 | H2];
    [| destruct Hout as (e' & He' & Hc); [tauto | congruence]].
  destruct (hour_in_calendar_dec (pred_start_hour_offset cfg sample_index)) as [H3 | H3];
    [| destruct Hout as (e' & He' & Hc); [tauto | congruence]].
  destruct (hour_in_calendar_dec (pred_end_hour_offset cfg sample_index)) as [H4 | H4];
    [| destruct Hout as (e' & He' & Hc); [tauto | congruence]].
  destruct (proj2 Hiff (conj H1 (conj H2 (conj H3 H4)))) as [tw Htw]. congruence.
Qed.

Lemma get_sample_date_range_returns_iff_witness :
  START_DATE module_config = START_DATE module_config
  /\ ((exists tw, get_sample_date_range module_config (-40) (START_DATE module_config)
                  = inr tw)
      <-> (hour_in_calendar (input_start_hour_offset (-40))
           /\ hour_in_calendar (input_end_hour_offset module_config (-40))
           /\ hour_in_calendar (pred_start_hour_offset module_config (-40))
           /\ hour_in_calendar (pred_end_hour_offset module_config (-40))))
  /\ (forall e, get_sample_date_range module_config 69995056 (START_DATE module_config)
                = inl e ->
        exn_class e = "OverflowError").
Proof.
  split; [reflexivity |]. split.
  - exact (proj1 (get_sample_date_range_returns_iff module_config (-40) eq_refl)).
  - exact (proj1 (proj2 (get_sample_date_range_returns_iff module_config 69995056
                           eq_refl))).
Defined.


(** X2. Counted from the base date of the module, which is a midnight, the
    four times of a record are full hours: each is the hour of its offset
    modulo 24, followed by ":00:00". *)
Theorem times_on_the_hour (cfg : Config) (sample_index : Z) (tw : TimeWindow) :
  START_DATE cfg = START_DATE module_config ->
  get_sample_date_range cfg sample_index (START_DATE cfg) = inr tw ->
  inputStart tw = on_the_hour (input_start_hour_offset sample_index mod 24)
  /\ inputEnd tw = on_the_hour (input_end_hour_offset cfg sample_index mod 24)
  /\ predStart tw = on_the_hour (pred_start_hour_offset cfg sample_index mod 24)
  /\ predEnd tw = on_the_hour (pred_end_hour_offset cfg sample_index mod 24).
Proof.
  intros Hstart Hrun.
  assert (Hin : exists tw, get_sample_date_range cfg sample_index (START_DATE cfg)
                           = inr tw) by eauto.
  apply (date_range_returns_iff cfg sample_index Hstart) in Hin
    as (H1 & H2 & H3 & H4).
  rewrite Hstart in Hrun.
  unfold get_sample_date_range, input_start_time, input_end_time,
    pred_start_time, pred_end_time in Hrun.
  rewrite (plus_hours_in_calendar _ H1), (plus_hours_in_calendar _ H2),
    (plus_hours_in_calendar _ H3), (plus_hours_in_calendar _ H4) in Hrun.
  destruct (Calendar._ord2ymd (735599 + input_start_hour_offset sample_index / 24))
    as [[y1 m1] d1].
  destruct (Calendar._ord2ymd (735599 + input_end_hour_offset cfg sample_index / 24))
    as [[y2 m2] d2].
  destruct (Calendar._ord2ymd (735599 + pred_start_hour_offset cfg sample_index / 24))
    as [[y3 m3] d3].
  destruct (Calendar._ord2ymd (735599 + pred_end_hour_offset cfg sample_index / 24))
    as [[y4 m4] d4].
  cbn [exc_bind exc_ret] in Hrun. injection Hrun as <-.
  cbn [inputStart inputEnd predStart predEnd]. repeat split; reflexivity.
Qed.

Lemma times_on_the_hour_witness :
  (START_DATE module_config = START_DATE module_config
   /\ get_sample_date_range module_config 17 (START_DATE module_config)
      = inr module_time_details)
  /\ inputStart module_time_details = on_the_hour (input_start_hour_offset 17 mod 24)
  /\ inputEnd module_time_details
     = on_the_hour (input_end_hour_offset module_config 17 mod 24)
  /\ predStart module_time_details
     = on_the_hour (pred_start_hour_offset module_config 17 mod 24)
  /\ predEnd module_time_details
     = on_the_hour (pred_end_hour_offset module_config 17 mod 24).
Proof.
  split; [split; [reflexivity | vm_compute; reflexivity] |].
  apply (times_on_the_hour module_config 17 module_time_details eq_refl).
  vm_compute. reflexivity.
Defined.

(** X3. Counted from the base date of the module, the [date] of a record is
    the calendar day of the input window's start: two samples whose indices
    have the same quotient by 24 get the same [date], whatever the sequence
    length and horizon. *)
Theorem date_label_by_day
    (cfg1 cfg2 : Config) (i j : Z) (tw1 tw2 : TimeWindow) :
  START_DATE cfg1 = START_DATE module_config ->
  START_DATE cfg2 = START_DATE module_config ->
  get_sample_date_range cfg1 i (START_DATE cfg1) = inr tw1 ->
  get_sample_date_range cfg2 j (START_DATE cfg2) = inr tw2 ->
  i / 24 = j / 24 ->
  date tw1 = date tw2.
Proof.
  intros Hs1 Hs2 Hrun1 Hrun2 Hday.
  assert (Hin1 : exists tw, get_sample_date_range cfg1 i (START_DATE cfg1) = inr tw)
    by eauto.
  assert (Hin2 : exists tw, get_sample_date_range cfg2 j (START_DATE cfg2) = inr tw)
    by eauto.
  apply (date_range_returns_iff cfg1 i Hs1) in Hin1 as (A1 & A2 & A3 & A4).
  apply (date_range_returns_iff cfg2 j Hs2) in Hin2 as (B1 & B2 & B3 & B4).
  rewrite Hs1 in Hrun1. rewrite Hs2 in Hrun2.
  unfold get_sample_date_range, input_start_time, input_end_time,
    pred_start_time, pred_end_time in Hrun1, Hrun2.
  rewrite (plus_hours_in_calendar _ A1), (plus_hours_in_calendar _ A2),
    (plus_hours_in_calendar _ A3), (plus_hours_in_calendar _ A4) in Hrun1.
  rewrite (plus_hours_in_calendar _ B1), (plus_hours_in_calendar _ B2),
    (plus_hours_in_calendar _ B3), (plus_hours_in_calendar _ B4) in Hrun2.
  unfold input_start_hour_offset in Hrun1, Hrun2. rewrite <- Hday in Hrun2.
  destruct (Calendar._ord2ymd (735599 + i / 24)) as [[y m] d].
  repeat match type of Hrun1 with
         | context [Calendar._ord2ymd ?n] =>
             destruct (Calendar._ord2ymd n) as [[? ?] ?]
         end.
  repeat match type of Hrun2 with
         | context [Calendar._ord2ymd ?n] =>
             destruct (Calendar._ord2ymd n) as [[? ?] ?]
         end.
  cbn [exc_bind exc_ret] in Hrun1, Hrun2.
  injection Hrun1 as <-. injection Hrun2 as <-. reflexivity.
Qed.

Lemma date_label_by_day_witness :
  let tw1 := mkTimeWindow "00:00:00" "05:00:00" "06:00:00" "08:00:00"
                          "2015-01-02" "2015-01-02 00:00:00" in
  let tw2 := mkTimeWindow "23:00:00" "04:00:00" "05:00:00" "07:00:00"
                          "2015-01-02" "2015-01-02 23:00:00" in
  (START_DATE module_config = START_DATE module_config
   /\ START_DATE long_horizon_config = START_DATE module_config
   /\ get_sample_date_range module_config 24 (START_DATE module_config) = inr tw1
   /\ get_sample_date_range long_horizon_config 47
        (START_DATE long_horizon_config) = inr tw2
   /\ 24 / 24 = 47 / 24)
  /\ date tw1 = date tw2.
Proof.
  intros tw1 tw2.
  split; [repeat split; vm_compute; reflexivity |].
  apply (date_label_by_day module_config long_horizon_config 24 47 tw1 tw2);
    vm_compute; reflexivity.
Defined.

(** X4. In every record, for any sample, base date and constants,
    [full_start_date] is [date], a space, and [inputStart]. *)
Theorem full_start_date_composed
    (cfg : Config) (sample_index : Z) (start_date : datetime) (tw : TimeWindow) :
  get_sample_date_range cfg sample_index start_date = inr tw ->
  full_start_date tw = date tw +:+ " " +:+ inputStart tw.
Proof.
  unfold get_sample_date_range.
  destruct (input_start_time sample_index start_date) as [e | t1];
    [discriminate |].
  destruct (input_end_time cfg sample_index start_date) as [e | t2];
    [discriminate |].
  destruct (pred_start_time cfg sample_index start_date) as [e | t3];
    [discriminate |].
  destruct (pred_end_time cfg sample_index start_date) as [e | t4];
    [discriminate |].
  cbn [exc_bind exc_ret]. intros [= <-].
  cbn [full_start_date date inputStart]. reflexivity.
Qed.

Lemma full_start_date_composed_witness :
  get_sample_date_range module_config 17 (START_DATE module_config)
    = inr module_time_details
  /\ full_start_date module_time_details
     = date module_time_details +:+ " " +:+ inputStart module_time_details.
Proof.
  split; [vm_compute; reflexivity |].
  apply (full_start_date_composed module_config 17 (START_DATE module_config)).
  vm_compute. reflexivity.
Defined.


(** * Further properties of the handler and of the server *)

Section MoreHandlerFacts.
Context {R : Runtime}.

Lemma valid_request_accepted (req : Request) :
  valid_request req = true -> exists p, bounds_outcome req = inr p.
Proof.
  unfold valid_request. intros [Hlat Hlon]%andb_true_iff.
  by apply bounds_outcome_accepts.
Qed.

Lemma valid_request_rejected (req : Request) :
  valid_request req = false -> exists e, bounds_outcome req = inl e.
Proof.
  unfold valid_request. intros Hbad%andb_false_iff.
  destruct (bounds_outcome_rejects req Hbad) as (e & He & _). eauto.
Qed.

(** One request against the module constants, in full. *)
Lemma predict_module (m : keras_model) (req : Request) (w : World) :
  predict module_config (Some m) req w
    = match bounds_outcome req with
      | inl e =>
          (inr (mkResponse
                  (ErrorBody ("Invalid input coordinates: " +:+ exn_str e)) 400),
           body_read w)
      | inr _ =>
          (inr match inference_outcome
                       (fst (model_predict m (drawn_input module_config w)
                               (backend w))) with
               | inl e =>
                   mkResponse
                     (ErrorBody ("Model inference failed: " +:+ exn_str e)) 500
               | inr prediction_list =>
                   mkResponse (ResultBody prediction_list module_time_details) 200
               end,
           inferred module_config m w)
      end.
Proof.
  destruct (bounds_outcome req) as [e | p] eqn:Hb.
  - by apply predict_rejects.
  - by apply (predict_accepts module_config m req w p _ Hb fixed_sample_window).
Qed.

Lemma dispatch_module_calls (m : keras_model) (req : Request) (w : World) :
  length (predict_calls (snd (dispatch module_config (Some m) req w)))
    = (length (predict_calls w) + (if valid_request req then 1 else 0))%nat.
Proof.
  unfold dispatch. rewrite predict_module.
  destruct (valid_request req) eqn:Hv.
  - destruct (valid_request_accepted req Hv) as [p ->]. cbn [snd].
    change (predict_calls (inferred module_config m w))
      with (drawn_input module_config w :: predict_calls w).
    cbn [length]. lia.
  - destruct (valid_request_rejected req Hv) as [e ->]. cbn [snd].
    change (predict_calls (body_read w)) with (predict_calls w). lia.
Qed.

Lemma serve_cons (cfg : Config) (model : option keras_model)
    (req : Request) (rest : list Request) (w : World) :
  serve cfg model (req :: rest) w
    = (fst (dispatch cfg model req w)
         :: fst (serve cfg model rest (snd (dispatch cfg model req w))),
       snd (serve cfg model rest (snd (dispatch cfg model req w)))).
Proof.
  cbn [serve]. destruct (dispatch cfg model req w) as [resp w1].
  cbn [fst snd]. destruct (serve cfg model rest w1) as [resps w2]. reflexivity.
Qed.


Lemma serve_none (cfg : Config) (reqs : list Request) (w : World) :
  serve cfg None reqs w = (replicate (length reqs) unavailable, w).
Proof.
  induction reqs as [| req rest IH]; [reflexivity |].
  rewrite serve_cons. unfold dispatch at 1 2 3. unfold predict, py_ret.
  cbn [fst snd]. rewrite IH. reflexivity.
Qed.

End MoreHandlerFacts.


Section ViewFacts.
Context {R : Runtime}.
Variable jsonify_error : pylist -> option PyExn.

(** One request through the whole view, against the module constants. *)
Lemma predict_view_module (m : keras_model) (req : Request) (w : World) :
  predict_view jsonify_error module_config (Some m) req w
    = match bounds_outcome req with
      | inl e =>
          (inr (mkResponse
                  (ErrorBody ("Invalid input coordinates: " +:+ exn_str e)) 400),
           body_read w)
      | inr _ =>
          (match inference_outcome
                   (fst (model_predict m (drawn_input module_config w)
                           (backend w))) with
           | inl e =>
               inr (mkResponse
                      (ErrorBody ("Model inference failed: " +:+ exn_str e)) 500)
           | inr prediction_list =>
               match jsonify_error prediction_list with
               | Some e => inl e
               | None =>
                   inr (mkResponse
                          (ResultBody prediction_list module_time_details) 200)
               end
           end,
           inferred module_config m w)
      end.
Proof.
  unfold predict_view, py_bind, py_try. rewrite read_bounds_run.
  destruct (bounds_outcome req) as [e | p]; [reflexivity |].
  unfold py_lift at 1. rewrite fixed_sample_window.
  unfold make_input_tensor, np_random_rand, run_inference, call_predict,
    jsonify_result, log, py_bind, py_ret, py_lift, inferred, drawn_input,
    inference_outcome, body_read.
  cbn [rng backend calls].
  destruct (random_rand (input_shape module_config) (rng w)) as [a g].
  cbn [fst snd rng backend calls].
  destruct (model_predict m (astype_float32 a) (backend w)) as [[e | out] b];
    cbn [fst snd exc_bind]; [reflexivity |].
  destruct (index0 out) as [e | first]; cbn [exc_bind exc_ret]; [reflexivity |].
  destruct (jsonify_error (tolist first)); reflexivity.
Qed.

Lemma serve_view_cons (cfg : Config) (model : option keras_model)
    (req : Request) (rest : list Request) (w : World) :
  serve_view jsonify_error cfg model (req :: rest) w
    = (fst (dispatch_view jsonify_error cfg model req w)
         :: fst (serve_view jsonify_error cfg model rest
                   (snd (dispatch_view jsonify_error cfg model req w))),
       snd (serve_view jsonify_error cfg model rest
              (snd (dispatch_view jsonify_error cfg model req w)))).
Proof.
  cbn [serve_view]. destruct (dispatch_view _ cfg model req w) as [resp w1].
  cbn [fst snd]. destruct (serve_view _ cfg model rest w1) as [resps w2].
  reflexivity.
Qed.
End ViewFacts.

(** X5. With the model loaded, the view ends in exactly one of four ways,
    told apart by the request and the model: a 400 response exactly when
    [latMin] or [lonMin] is missing or not accepted by [float]; a 500
    response exactly when both are accepted and the prediction or its
    conversion raises; a 200 response exactly when both are accepted, the
    prediction and its conversion succeed and the list serialises; and an
    exception leaving the view exactly when the final [jsonify], which stands
    outside both [try] blocks, raises on the list. *)
Theorem status_classification
    {R : Runtime} (jsonify_error : pylist -> option PyExn)
    (m : keras_model) (req : Request) (w : World) :
  let outcome := fst (predict_view jsonify_error module_config (Some m) req w) in
  let inference :=
    inference_outcome
      (fst (model_predict m (drawn_input module_config w) (backend w))) in
  ((exists resp, outcome = inr resp /\ status resp = 400)
   <-> valid_request req = false)
  /\ ((exists resp, outcome = inr resp /\ status resp = 500)
      <-> valid_request req = true /\ exists e, inference = inl e)
  /\ ((exists resp, outcome = inr resp /\ status resp = 200)
      <-> valid_request req = true
          /\ exists l, inference = inr l /\ jsonify_error l = None)
  /\ (forall e, outcome = inl e
      <-> valid_request req = true
          /\ exists l, inference = inr l /\ jsonify_error l = Some e).
Proof.
  intros outcome inference. subst outcome inference.
  rewrite predict_view_module.
  destruct (valid_request req) eqn:Hv.
  - destruct (valid_request_accepted req Hv) as [p ->]. cbn [fst].
    destruct (inference_outcome _) as [e | l].
    + split; [split; [intros (r & [= <-] & Hs); discriminate | discriminate] |].
      split; [split; [eauto | eauto] |].
      split; [split; [intros (r & [= <-] & Hs); discriminate
                     | intros (_ & l & [=] & _)] |].
      intros e'. split; [discriminate | intros (_ & l & [=] & _)].
    + destruct (jsonify_error l) as [e |] eqn:Hj.
      * split; [split; [intros (r & [=] & _) | discriminate] |].
        split; [split; [intros (r & [=] & _) | intros (_ & e' & [=])] |].
        split; [split; [intros (r & [=] & _)
                       | intros (_ & l' & [= <-] & Hn); congruence] |].
        intros e'. split.
        -- intros [= <-]. eauto.
        -- intros (_ & l' & [= <-] & He'). congruence.
      * split; [split; [intros (r & [= <-] & Hs); discriminate | discriminate] |].
        split; [split; [intros (r & [= <-] & Hs); discriminate
                       | intros (_ & e' & [=])] |].
        split; [split; [eauto | eauto] |].
        intros e'. split; [discriminate |].
        intros (_ & l' & [= <-] & He'). congruence.
  - destruct (valid_request_rejected req Hv) as [e ->]. cbn [fst].
    split; [split; [reflexivity | eauto] |].
    split; [split; [intros (r & [= <-] & Hs); discriminate | intros [[=] _]] |].
    split; [split; [intros (r & [= <-] & Hs); discriminate | intros [[=] _]] |].
    intros e'. split; [discriminate | intros [[=] _]].
Qed.


(** X6. When [model.predict] returns but taking the first batch element of
    its output raises, the request is answered like a failed inference: 500
    with "Model inference failed: " and the text of that exception, the
    model having been called once. *)
Theorem postprocessing_failure_reported
    {R : Runtime} (m : keras_model) (req : Request) (w : World)
    (out : ndarray) (e : PyExn) :
  valid_request req = true ->
  fst (model_predict m (drawn_input module_config w) (backend w)) = inr out ->
  index0 out = inl e ->
  exists w',
    predict module_config (Some m) req w
      = (inr (mkResponse (ErrorBody ("Model inference failed: " +:+ exn_str e)) 500),
         w')
    /\ predict_calls w' = drawn_input module_config w :: predict_calls w.
Proof.
  intros Hv Hout Hidx. rewrite predict_module.
  destruct (valid_request_accepted req Hv) as [p ->].
  rewrite Hout. cbn [inference_outcome exc_bind]. rewrite Hidx.
  eexists. split; reflexivity.
Qed.

Lemma postprocessing_failure_reported_witness :
  let req : @Request empty_batch_runtime :=
    mkRequest (inr (PDict (list_to_map [("latMin", PInt 1); ("lonMin", PInt 2)]))) in
  let w0 : @World empty_batch_runtime := mkWorld (R := empty_batch_runtime) O O [] in
  let e := mkExn "IndexError" "index 0 is out of bounds for axis 0 with size 0" in
  (valid_request req = true
   /\ fst (model_predict (Runtime := empty_batch_runtime) tt
             (drawn_input module_config w0) (backend w0)) = inr (Stub.Arr [])
   /\ index0 (Runtime := empty_batch_runtime) (Stub.Arr []) = inl e)
  /\ exists w',
       predict (R := empty_batch_runtime) module_config (Some tt) req w0
         = (inr (mkResponse
                   (ErrorBody
                      "Model inference failed: index 0 is out of bounds for axis 0 with size 0")
                   500),
            w')
       /\ predict_calls w' = drawn_input module_config w0 :: predict_calls w0.
Proof.
  intros req w0 e.
  split; [repeat split; vm_compute; reflexivity |].
  apply (postprocessing_failure_reported (R := empty_batch_runtime)
           tt req w0 (Stub.Arr []) e); vm_compute; reflexivity.
Defined.

(** X7. The success path: for a request whose [latMin] and [lonMin] are
    accepted, when the model returns an output that has a first batch
    element and that element serialises as a list, the view returns 200
    with that list and the window of the fixed sample; the handler has read
    the body, drawn one tensor of shape (1, 6, 13, 13, 7), which advances
    the generator once, and called the model once, on that tensor, in this
    order. *)
Theorem success_response
    {R : Runtime} (jsonify_error : pylist -> option PyExn)
    (m : keras_model) (req : Request) (w : World) (out first : ndarray) :
  valid_request req = true ->
  fst (model_predict m (drawn_input module_config w) (backend w)) = inr out ->
  index0 out = inr first ->
  jsonify_error (tolist first) = None ->
  let drawn := random_rand [1; 6; 13; 13; 7] (rng w) in
  let x := astype_float32 (fst drawn) in
  predict_view jsonify_error module_config (Some m) req w
    = (inr (mkResponse (ResultBody (tolist first) module_time_details) 200),
       mkWorld (snd drawn)
               (snd (model_predict m x (backend w)))
               (EvModelPredict x :: EvRandomRand [1; 6; 13; 13; 7]
                  :: EvRequestJson :: calls w)).
Proof.
  intros Hv Hout Hidx Hjson drawn x. rewrite predict_view_module.
  destruct (valid_request_accepted req Hv) as [p ->].
  rewrite Hout. cbn [inference_outcome exc_bind]. rewrite Hidx.
  cbn [exc_bind exc_ret]. rewrite Hjson. reflexivity.
Qed.

Lemma success_response_witness :
  let first := Stub.Arr [Stub.Scalar 0; Stub.Scalar 0; Stub.Scalar 0] in
  let x := Stub.Arr (map Stub.Scalar [1; 6; 13; 13; 7]) in
  let jsonify_error : @pylist Stub.runtime -> option PyExn := fun _ => None in
  (valid_request (R := Stub.runtime) Stub.req_full = true
   /\ fst (model_predict (Runtime := Stub.runtime) Stub.Healthy
             (drawn_input module_config Stub.world0) (backend Stub.world0))
      = inr (Stub.Arr [first])
   /\ index0 (Runtime := Stub.runtime) (Stub.Arr [first]) = inr first
   /\ jsonify_error (tolist (Runtime := Stub.runtime) first) = None)
  /\ predict_view (R := Stub.runtime) jsonify_error module_config
                  (Some Stub.Healthy) Stub.req_full Stub.world0
     = (inr (mkResponse (@ResultBody Stub.runtime first module_time_details) 200),
        mkWorld (R := Stub.runtime) 1%nat 1%nat
                [@EvModelPredict Stub.runtime x; EvRandomRand [1; 6; 13; 13; 7];
                 EvRequestJson]).
Proof.
  intros first x jsonify_error.
  split; [repeat split; vm_compute; reflexivity |].
  apply (success_response (R := Stub.runtime) jsonify_error Stub.Healthy
           Stub.req_full Stub.world0 (Stub.Arr [first]) first);
    vm_compute; reflexivity.
Defined.



(** X8. Validation stops at the first failure: when [float] rejects the
    value of [latMin] (or the key is missing), the response reports that
    exception and is the same whatever the rest of the body holds, [lonMin]
    included, which is not looked at. *)
Theorem first_failure_wins
    {R : Runtime} (cfg : Config) (m : keras_model)
    (d d' : gmap string PyVal) (e : PyExn) (w : World) :
  py_float (default PNone (d !! "latMin")) = inl e ->
  d' !! "latMin" = d !! "latMin" ->
  predict cfg (Some m) (mkRequest (inr (PDict d))) w
    = (inr (mkResponse (ErrorBody ("Invalid input coordinates: " +:+ exn_str e)) 400),
       body_read w)
  /\ predict cfg (Some m) (mkRequest (inr (PDict d'))) w
     = predict cfg (Some m) (mkRequest (inr (PDict d))) w.
Proof.
  intros Hlat Hsame.
  assert (Hb : forall d0 : gmap string PyVal,
             d0 !! "latMin" = d !! "latMin" ->
             bounds_outcome (mkRequest (inr (PDict d0))) = inl e).
  { intros d0 H0. unfold bounds_outcome.
    cbn [request_json exc_bind py_get exc_ret]. rewrite H0, Hlat. reflexivity. }
  rewrite (predict_rejects cfg m _ w e (Hb d eq_refl)).
  rewrite (predict_rejects cfg m _ w e (Hb d' Hsame)). split; reflexivity.
Qed.

Lemma first_failure_wins_witness :
  let d : gmap string (@PyVal Stub.runtime) :=
    list_to_map [("latMin", PStr "north"); ("lonMin", PInt 2)] in
  let d' : gmap string (@PyVal Stub.runtime) :=
    list_to_map [("latMin", PStr "north"); ("lonMin", PStr "east")] in
  let e := mkExn "ValueError" "could not convert string to float: 'north'" in
  (py_float (R := Stub.runtime) (default PNone (d !! "latMin")) = inl e
   /\ d' !! "latMin" = d !! "latMin")
  /\ predict (R := Stub.runtime) module_config (Some Stub.Healthy)
             (mkRequest (inr (PDict d))) Stub.world0
     = (inr (mkResponse
               (ErrorBody
                  "Invalid input coordinates: could not convert string to float: 'north'")
               400),
        body_read Stub.world0)
  /\ predict (R := Stub.runtime) module_config (Some Stub.Healthy)
             (mkRequest (inr (PDict d'))) Stub.world0
     = predict (R := Stub.runtime) module_config (Some Stub.Healthy)
               (mkRequest (inr (PDict d))) Stub.world0.
Proof.
  intros d d' e.
  split; [split; vm_compute; reflexivity |].
  apply (first_failure_wins (R := Stub.runtime) module_config Stub.Healthy
           d d' e Stub.world0); vm_compute; reflexivity.
Defined.

(** X9. A request rejected for [latMin] or for [lonMin] costs nothing
    beyond the read of its body: the generator and the state of the model
    are as before, and no tensor is drawn. *)
Theorem rejected_request_leaves_state
    {R : Runtime} (cfg : Config) (m : keras_model) (req : Request) (w : World) :
  valid_request req = false ->
  exists msg w',
    predict cfg (Some m) req w = (inr (mkResponse (ErrorBody msg) 400), w')
    /\ rng w' = rng w
    /\ backend w' = backend w
    /\ calls w' = EvRequestJson :: calls w.
Proof.
  intros Hv. destruct (valid_request_rejected req Hv) as [e Hb].
  rewrite (predict_rejects cfg m req w e Hb).
  eexists _, _. split; [reflexivity |]. repeat split; reflexivity.
Qed.

Lemma rejected_request_leaves_state_witness :
  let req : @Request Stub.runtime :=
    Stub.json [("latMin", PInt 1); ("lonMin", PStr "east")] in
  valid_request req = false
  /\ exists msg w',
       predict (R := Stub.runtime) module_config (Some Stub.Healthy) req Stub.world0
         = (inr (mkResponse (ErrorBody msg) 400), w')
       /\ rng w' = rng Stub.world0
       /\ backend w' = backend Stub.world0
       /\ calls w' = EvRequestJson :: calls Stub.world0.
Proof.
  intros req. split; [vm_compute; reflexivity |].
  apply (rejected_request_leaves_state (R := Stub.runtime) module_config
           Stub.Healthy req Stub.world0).
  vm_compute. reflexivity.
Defined.

(** X10. With no model loaded, a whole run of requests is answered with
    the unavailable response, one per request, and the process state at the
    end is the one at the start. *)
Theorem serve_unavailable
    {R : Runtime} (cfg : Config) (reqs : list Request) (w : World) :
  serve cfg None reqs w = (replicate (length reqs) unavailable, w).
Proof. apply serve_none. Qed.

(** X11. The final [jsonify] is outside both [try] blocks: when the model's
    first batch element converts to a list that does not serialise, the
    exception leaves the view after the model has been called, and the
    request is answered by the framework's generic 500 page, not by one of
    the handler's JSON error bodies. *)
Theorem unserialisable_prediction_escapes
    {R : Runtime} (jsonify_error : pylist -> option PyExn)
    (m : keras_model) (req : Request) (w : World)
    (out first : ndarray) (e : PyExn) :
  valid_request req = true ->
  fst (model_predict m (drawn_input module_config w) (backend w)) = inr out ->
  index0 out = inr first ->
  jsonify_error (tolist first) = Some e ->
  predict_view jsonify_error module_config (Some m) req w
    = (inl e, inferred module_config m w)
  /\ dispatch_view jsonify_error module_config (Some m) req w
     = (mkResponse InternalServerError 500, inferred module_config m w)
  /\ predict_calls (inferred module_config m w)
     = drawn_input module_config w :: predict_calls w.
Proof.
  intros Hv Hout Hidx Hjson.
  assert (Hrun : predict_view jsonify_error module_config (Some m) req w
                 = (inl e, inferred module_config m w)).
  { rewrite predict_view_module.
    destruct (valid_request_accepted req Hv) as [p ->].
    rewrite Hout. cbn [inference_outcome exc_bind]. rewrite Hidx.
    cbn [exc_bind exc_ret]. rewrite Hjson. reflexivity. }
  split; [exact Hrun |]. split; [| reflexivity].
  unfold dispatch_view. rewrite Hrun. reflexivity.
Qed.

Lemma unserialisable_prediction_escapes_witness :
  let first := Stub.Arr [Stub.Scalar 0; Stub.Scalar 0; Stub.Scalar 0] in
  let e := mkExn "TypeError" "Object of type complex is not JSON serializable" in
  let jsonify_error : @pylist Stub.runtime -> option PyExn := fun _ => Some e in
  (valid_request (R := Stub.runtime) Stub.req_full = true
   /\ fst (model_predict (Runtime := Stub.runtime) Stub.Healthy
             (drawn_input module_config Stub.world0) (backend Stub.world0))
      = inr (Stub.Arr [first])
   /\ index0 (Runtime := Stub.runtime) (Stub.Arr [first]) = inr first
   /\ jsonify_error (tolist (Runtime := Stub.runtime) first) = Some e)
  /\ predict_view (R := Stub.runtime) jsonify_error module_config
                  (Some Stub.Healthy) Stub.req_full Stub.world0
     = (inl e, inferred (R := Stub.runtime) module_config Stub.Healthy Stub.world0)
  /\ dispatch_view (R := Stub.runtime) jsonify_error module_config
                   (Some Stub.Healthy) Stub.req_full Stub.world0
     = (mkResponse InternalServerError 500,
        inferred (R := Stub.runtime) module_config Stub.Healthy Stub.world0)
  /\ predict_calls (inferred (R := Stub.runtime) module_config Stub.Healthy Stub.world0)
     = drawn_input module_config Stub.world0 :: predict_calls Stub.world0.
Proof.
  intros first e jsonify_error.
  split; [repeat split; vm_compute; reflexivity |].
  apply (unserialisable_prediction_escapes (R := Stub.runtime) jsonify_error
           Stub.Healthy Stub.req_full Stub.world0 (Stub.Arr [first]) first e);
    vm_compute; reflexivity.
Defined.


(** X12. Over a run of requests against the module constants, every
    response has status 200, 400 or 500, and the framework's generic error
    page can only come from the final [jsonify]: when every prediction list
    serialises, each response is one of the handler's own JSON responses. *)
Theorem serve_answers_each_request
    {R : Runtime} (jsonify_error : pylist -> option PyExn)
    (model : option keras_model) (reqs : list Request) (w : World) :
  Forall (fun resp => status resp = 200 \/ status resp = 400 \/ status resp = 500)
         (fst (serve_view jsonify_error module_config model reqs w))
  /\ ((forall l, jsonify_error l = None) ->
      Forall (fun resp => body resp <> InternalServerError)
             (fst (serve_view jsonify_error module_config model reqs w))).
Proof.
  assert (Hone : forall req w0,
             let resp := fst (dispatch_view jsonify_error module_config model req w0) in
             (status resp = 200 \/ status resp = 400 \/ status resp = 500)
             /\ ((forall l, jsonify_error l = None) ->
                 body resp <> InternalServerError)).
  { intros req w0. unfold dispatch_view. destruct model as [m |].
    - rewrite predict_view_module.
      destruct (bounds_outcome req) as [e | p]; cbn [fst body status].
      + split; [lia | discriminate].
      + destruct (inference_outcome _) as [e | l]; cbn [fst body status].
        * split; [lia | discriminate].
        * destruct (jsonify_error l) as [e |] eqn:Hj; cbn [fst body status].
          -- split; [lia |]. intros Hall. rewrite Hall in Hj. discriminate.
          -- split; [lia | discriminate].
    - unfold predict_view, py_ret. cbn [fst body status].
      split; [lia | discriminate]. }
  split.
  - revert w. induction reqs as [| req rest IH]; intros w; [constructor |].
    rewrite serve_view_cons. cbn [fst]. constructor; [apply Hone | apply IH].
  - intros Hall. revert w.
    induction reqs as [| req rest IH]; intros w; [constructor |].
    rewrite serve_view_cons. cbn [fst].
    constructor; [by apply Hone | apply IH].
Qed.


(** X13. With the model loaded, a run of requests calls [model.predict]
    once for each request that passes validation and never for the others:
    the number of calls grows by the number of valid requests. *)
Theorem serve_model_calls
    {R : Runtime} (m : keras_model) (reqs : list Request) (w : World) :
  length (predict_calls (snd (serve module_config (Some m) reqs w)))
    = (length (predict_calls w) + length (List.filter valid_request reqs))%nat.
Proof.
  revert w. induction reqs as [| req rest IH]; intros w.
  - cbn [serve snd List.filter length]. lia.
  - rewrite serve_cons. cbn [snd List.filter]. rewrite IH, dispatch_module_calls.
    destruct (valid_request req); cbn [length]; lia.
Qed.

(** X14. Degrade, do not crash: when loading the model raises at startup,
    the exception is caught, its text is printed after the two fixed lines,
    [model] is [None], and the server answers every request with the
    unavailable response. *)
Theorem startup_failure_degrades
    {R : Runtime} (load_model : string -> Exc keras_model) (e : PyExn)
    (reqs : list Request) (w : World) :
  load_model MODEL_PATH = inl e ->
  startup load_model
    = (None,
       ["Loading model from: C:\Users\Ankit\Downloads\final_model.h5";
        "[CRITICAL ERROR] Failed to load model. Please check the path and dependencies.";
        "Error: " +:+ exn_str e])
  /\ run_server load_model reqs w = (replicate (length reqs) unavailable, w).
Proof.
  intros Hload. unfold run_server, startup. rewrite Hload. cbn [fst].
  split; [reflexivity | apply serve_none].
Qed.

Lemma startup_failure_degrades_witness :
  let e := mkExn "OSError" "No file or directory found" in
  let load_model : string -> Exc (@keras_model Stub.runtime) := fun _ => inl e in
  load_model MODEL_PATH = inl e
  /\ startup (R := Stub.runtime) load_model
     = (None,
        ["Loading model from: C:\Users\Ankit\Downloads\final_model.h5";
         "[CRITICAL ERROR] Failed to load model. Please check the path and dependencies.";
         "Error: No file or directory found"])
  /\ run_server (R := Stub.runtime) load_model [Stub.req_full; Stub.req_empty]
                Stub.world0
     = ([unavailable; unavailable], Stub.world0).
Proof.
  intros e load_model. split; [reflexivity |].
  exact (startup_failure_degrades (R := Stub.runtime) load_model e
           [Stub.req_full; Stub.req_empty] Stub.world0 eq_refl).
Defined.



(** * The custom layer functions *)

Lemma slice_stop_le (k : Z) (n : nat) : (slice_stop k n <= n)%nat.
Proof. unfold slice_stop. destruct (k <? 0) eqn:Hk; lia. Qed.

Lemma slice_stop_nonneg (k : Z) (n : nat) :
  0 <= k -> slice_stop k n = Nat.min n (Z.to_nat k).
Proof.
  intros Hk. unfold slice_stop.
  destruct (Z.ltb_spec k 0); [lia | reflexivity].
Qed.

Lemma slice_output_shape_as_match (cfg : Config) (input_shape : list dim) :
  slice_output_shape cfg input_shape
    = match input_shape with
      | d0 :: _ :: d2 :: d3 :: d4 :: _ =>
          inr [d0; Some (HORIZONS cfg); d2; d3; d4]
      | _ => inl (mkExn "IndexError" "tuple index out of range")
      end.
Proof.
  unfold slice_output_shape, tuple_index.
  destruct input_shape as [| d0 [| d1 [| d2 [| d3 [| d4 rest]]]]]; reflexivity.
Qed.

(** X15. [slice_output_shape] returns exactly when the shape has five
    entries at least, and what it raises otherwise is [IndexError].  A
    returned shape has five entries, [HORIZONS] at index 1 and the input's
    entries at the indices 0, 2, 3 and 4; applied to its own result the
    function returns that result again. *)
Theorem slice_output_shape_spec (cfg : Config) (input_shape : list dim) :
  ((exists r, slice_output_shape cfg input_shape = inr r)
   <-> (5 <= length input_shape)%nat)
  /\ (forall e, slice_output_shape cfg input_shape = inl e ->
        exn_class e = "IndexError")
  /\ (forall r, slice_output_shape cfg input_shape = inr r ->
        length r = 5%nat
        /\ r !! 1%nat = Some (Some (HORIZONS cfg))
        /\ (forall i : nat, i <> 1%nat -> (i < 5)%nat -> r !! i = input_shape !! i)
        /\ slice_output_shape cfg r = inr r).
Proof.
  rewrite slice_output_shape_as_match.
  destruct input_shape as [| d0 [| d1 [| d2 [| d3 [| d4 rest]]]]]; cbn [length].
  1-5: split; [split; [intros [r Hr]; discriminate | lia] |].
  1-5: split; [intros e [= <-]; reflexivity | intros r Hr; discriminate].
  split; [split; [intros _; lia | intros _; eauto] |].
  split; [intros e He; discriminate |].
  intros r [= <-]. split; [reflexivity |]. split; [reflexivity |]. split.
  - intros [| [| [| [| [| i]]]]] Hne Hlt; try reflexivity; [congruence | lia].
  - apply slice_output_shape_as_match.
Qed.


(** X16. [squeeze_output_shape] drops the last entry of a shape and nothing
    else, and maps the empty shape to itself. *)
Theorem squeeze_output_shape_spec (input_shape : list dim) (last_dim : dim) :
  squeeze_output_shape (input_shape ++ [last_dim])%list = input_shape
  /\ squeeze_output_shape [] = []
  /\ length (squeeze_output_shape input_shape) = Nat.pred (length input_shape).
Proof.
  unfold squeeze_output_shape, py_slice_to, slice_stop.
  change (-1 <? 0) with true. cbv iota.
  split; [| split].
  - rewrite length_app. cbn [length].
    replace (Z.to_nat (Z.max 0 (Z.of_nat (length input_shape + 1) + -1)))
      with (length input_shape) by lia.
    by rewrite take_app_length.
  - reflexivity.
  - rewrite length_take. lia.
Qed.

Section TensorFacts.
Context {A : Type}.
Implicit Types (x y : tensor A) (data : list A).

Lemma take_chunks_length (count chunk keep : nat) data :
  length data = (count * chunk)%nat -> (keep <= chunk)%nat ->
  length (take_chunks count chunk keep data) = (count * keep)%nat.
Proof.
  revert data. induction count as [| n IH]; intros data Hlen Hkeep;
    [reflexivity |].
  cbn [take_chunks]. rewrite length_app, length_take, IH.
  - lia.
  - rewrite length_drop. lia.
  - exact Hkeep.
Qed.

Lemma take_chunks_lookup (count chunk keep : nat) data (n r : nat) :
  length data = (count * chunk)%nat -> (keep <= chunk)%nat ->
  (n < count)%nat -> (r < keep)%nat ->
  take_chunks count chunk keep data !! (n * keep + r)%nat
    = data !! (n * chunk + r)%nat.
Proof.
  revert data n. induction count as [| c IH]; intros data n Hlen Hkeep Hn Hr;
    [lia |].
  cbn [take_chunks].
  assert (Htake : length (take keep data) = keep) by (rewrite length_take; lia).
  destruct n as [| n'].
  - cbn [Nat.mul Nat.add]. rewrite lookup_app_l by lia.
    by rewrite lookup_take_lt.
  - rewrite lookup_app_r by lia. rewrite Htake.
    replace (S n' * keep + r - keep)%nat with (n' * keep + r)%nat by lia.
    rewrite IH; [| rewrite length_drop; lia | exact Hkeep | lia | exact Hr].
    rewrite lookup_drop. f_equal. lia.
Qed.

Lemma take_chunks_all (count chunk : nat) data :
  length data = (count * chunk)%nat ->
  take_chunks count chunk chunk data = data.
Proof.
  revert data. induction count as [| n IH]; intros data Hlen.
  - destruct data; [reflexivity | discriminate].
  - cbn [take_chunks]. rewrite IH by (rewrite length_drop; lia).
    apply take_drop.
Qed.

Lemma slice_output_func_eq (cfg : Config) x (b t : nat) (rest : list nat) :
  t_shape x = b :: t :: rest -> (3 <= length rest)%nat ->
  slice_output_func cfg x
    = Some (mkTensor (b :: slice_stop (HORIZONS cfg) t :: rest)
              (take_chunks b (t * numel rest)
                 (slice_stop (HORIZONS cfg) t * numel rest) (t_data x))).
Proof.
  intros Hshape Hrank. unfold slice_output_func. rewrite Hshape.
  destruct (Nat.leb_spec 3 (length rest)); [reflexivity | lia].
Qed.

Lemma slice_output_func_shape (cfg : Config) x y :
  slice_output_func cfg x = Some y ->
  exists b t rest,
    t_shape x = b :: t :: rest /\ (3 <= length rest)%nat
    /\ y = mkTensor (b :: slice_stop (HORIZONS cfg) t :: rest)
             (take_chunks b (t * numel rest)
                (slice_stop (HORIZONS cfg) t * numel rest) (t_data x)).
Proof.
  unfold slice_output_func.
  destruct (t_shape x) as [| b [| t rest]]; try discriminate.
  destruct (Nat.leb_spec 3 (length rest)); [| discriminate].
  intros [= <-]. exists b, t, rest. auto.
Qed.

Lemma slice_output_func_wf (cfg : Config) x y :
  well_formed x -> slice_output_func cfg x = Some y -> well_formed y.
Proof.
  intros Hwf Hy.
  destruct (slice_output_func_shape cfg x y Hy) as (b & t & rest & Hs & _ & ->).
  unfold well_formed in *. rewrite Hs in Hwf. cbn [numel foldr] in Hwf.
  cbn [t_data t_shape numel foldr].
  apply take_chunks_length; [exact Hwf |].
  apply Nat.mul_le_mono_r, slice_stop_le.
Qed.

End TensorFacts.


Section TensorTheorems.
Context {A : Type}.
Implicit Types (x y z : tensor A).

Lemma numel_snoc (shape : list nat) (n : nat) :
  numel (shape ++ [n]) = (numel shape * n)%nat.
Proof.
  unfold numel. induction shape as [| d rest IH]; cbn [app foldr]; [lia |].
  rewrite IH. lia.
Qed.

Lemma py_slice_to_minus_one {B} (l : list B) (b : B) :
  py_slice_to (-1) (l ++ [b]) = l.
Proof.
  unfold py_slice_to, slice_stop. change (-1 <? 0) with true. cbv iota.
  rewrite length_app. cbn [length].
  replace (Z.to_nat (Z.max 0 (Z.of_nat (length l + 1) + -1)))
    with (length l) by lia.
  by rewrite take_app_length.
Qed.

(** X17. [slice_output_func] returns exactly on tensors of rank five or
    more.  On a well-formed tensor of shape (b, t, ...) the result is
    well-formed, of shape (b, k, ...) with the other axes as they were,
    where k = min(t, HORIZONS) for a non-negative [HORIZONS]; k never
    exceeds t. *)
Theorem slice_output_func_shape_spec (cfg : Config) x :
  (is_Some (slice_output_func cfg x) <-> (5 <= length (t_shape x))%nat)
  /\ forall y, slice_output_func cfg x = Some y ->
       exists b t rest,
         t_shape x = b :: t :: rest
         /\ t_shape y = b :: slice_stop (HORIZONS cfg) t :: rest
         /\ (slice_stop (HORIZONS cfg) t <= t)%nat
         /\ (0 <= HORIZONS cfg ->
             slice_stop (HORIZONS cfg) t = Nat.min t (Z.to_nat (HORIZONS cfg)))
         /\ (well_formed x -> well_formed y).
Proof.
  split.
  - unfold slice_output_func.
    destruct (t_shape x) as [| b [| t rest]]; cbn [length].
    + split; [intros [? [=]] | lia].
    + split; [intros [? [=]] | lia].
    + destruct (Nat.leb_spec 3 (length rest)).
      * split; [lia | eauto].
      * split; [intros [? [=]] | lia].
  - intros y Hy.
    destruct (slice_output_func_shape cfg x y Hy) as (b & t & rest & Hs & Hr & Heq).
    exists b, t, rest. split; [exact Hs |].
    split; [by rewrite Heq |]. split; [apply slice_stop_le |].
    split; [apply slice_stop_nonneg |].
    intros Hwf. by apply (slice_output_func_wf cfg x y).
Qed.

(** X18. [slice_output_func] keeps the elements of the steps it keeps: in a
    well-formed tensor of shape (b, t, ...), the element of batch item [n],
    step [j] and inner position [q] of the result is the element of the
    input at the same indices, for every step [j] below the number kept. *)
Theorem slice_output_func_elements
    (cfg : Config) x y (b t : nat) (rest : list nat) (n j q : nat) :
  well_formed x ->
  t_shape x = b :: t :: rest ->
  slice_output_func cfg x = Some y ->
  (n < b)%nat -> (j < slice_stop (HORIZONS cfg) t)%nat -> (q < numel rest)%nat ->
  t_data y !! (n * (slice_stop (HORIZONS cfg) t * numel rest)
               + (j * numel rest + q))%nat
    = t_data x !! (n * (t * numel rest) + (j * numel rest + q))%nat.
Proof.
  intros Hwf Hs Hy Hn Hj Hq.
  destruct (slice_output_func_shape cfg x y Hy) as (b' & t' & rest' & Hs' & _ & ->).
  rewrite Hs in Hs'. injection Hs' as <- <- <-.
  cbn [t_data]. unfold well_formed in Hwf. rewrite Hs in Hwf.
  cbn [numel foldr] in Hwf. fold (numel rest) in Hwf.
  apply take_chunks_lookup; [exact Hwf | | exact Hn |].
  - apply Nat.mul_le_mono_r, slice_stop_le.
  - nia.
Qed.

(** X19. The declared output shape of the slicing layer and the shape the
    layer really produces: on a tensor of rank five, with a non-negative
    [HORIZONS], [slice_output_shape] of the input's shape is the shape of
    [slice_output_func]'s result exactly when the input has at least
    [HORIZONS] steps; on a shorter input the declared shape is too long. *)
Theorem declared_slice_shape_agrees
    (cfg : Config) x y (b t h w c : nat) :
  t_shape x = [b; t; h; w; c] ->
  0 <= HORIZONS cfg ->
  slice_output_func cfg x = Some y ->
  slice_output_shape cfg (shape_of x) = inr (shape_of y)
  <-> HORIZONS cfg <= Z.of_nat t.
Proof.
  intros Hs HH Hy.
  destruct (slice_output_func_shape cfg x y Hy) as (b' & t' & rest' & Hs' & _ & ->).
  rewrite Hs in Hs'. injection Hs' as <- <- <-.
  rewrite slice_output_shape_as_match. unfold shape_of. rewrite Hs.
  cbn [t_shape map]. rewrite (slice_stop_nonneg _ _ HH).
  pose proof (Nat.le_min_l t (Z.to_nat (HORIZONS cfg))) as Hmin.
  split.
  - intros [= Heq]. rewrite Heq. apply Nat2Z.inj_le, Nat.le_min_l.
  - intros Hle. rewrite Nat.min_r by lia.
    rewrite Z2Nat.id by exact HH. reflexivity.
Qed.

(** X20. For a non-negative [HORIZONS], slicing is idempotent on
    well-formed tensors, and leaves alone a tensor that has no more than
    [HORIZONS] steps. *)
Theorem slice_output_func_idempotent (cfg : Config) x y :
  well_formed x ->
  0 <= HORIZONS cfg ->
  slice_output_func cfg x = Some y ->
  slice_output_func cfg y = Some y
  /\ (forall b t rest,
        t_shape x = b :: t :: rest -> Z.of_nat t <= HORIZONS cfg -> y = x).
Proof.
  intros Hwf HH Hy.
  pose proof (slice_output_func_wf cfg x y Hwf Hy) as Hwfy.
  destruct (slice_output_func_shape cfg x y Hy) as (b & t & rest & Hs & Hr & Heq).
  rewrite (slice_stop_nonneg _ _ HH) in Heq.
  split.
  - rewrite (slice_output_func_eq cfg y b (Nat.min t (Z.to_nat (HORIZONS cfg))) rest);
      [| by rewrite Heq | exact Hr].
    rewrite (slice_stop_nonneg _ _ HH).
    rewrite Nat.min_l by apply Nat.le_min_r.
    rewrite take_chunks_all.
    + rewrite Heq. reflexivity.
    + unfold well_formed in Hwfy. rewrite Heq in Hwfy |- *.
      cbn [t_data t_shape numel foldr] in Hwfy |- *. exact Hwfy.
  - intros b' t' rest' Hs' Hle. rewrite Hs in Hs'. injection Hs' as <- <- <-.
    rewrite Heq. rewrite Nat.min_l by lia.
    rewrite take_chunks_all.
    + destruct x as [shape data]. cbn [t_shape t_data] in *. by rewrite Hs.
    + unfold well_formed in Hwf. rewrite Hs in Hwf.
      cbn [numel foldr] in Hwf. exact Hwf.
Qed.

(** X21. [squeeze_output_func] returns exactly on tensors whose last axis
    has size 1; the result has the same elements, is well-formed when the
    input is, and its shape is what [squeeze_output_shape] declares. *)
Theorem squeeze_output_func_spec x :
  (is_Some (squeeze_output_func x) <-> last (t_shape x) = Some 1%nat)
  /\ forall y, squeeze_output_func x = Some y ->
       t_data y = t_data x
       /\ shape_of y = squeeze_output_shape (shape_of x)
       /\ (well_formed x -> well_formed y).
Proof.
  unfold squeeze_output_func. split.
  - destruct (last (t_shape x)) as [[| [| n]] |].
    + split; [intros [? [=]] | discriminate].
    + split; [reflexivity | eauto].
    + split; [intros [? [=]] | discriminate].
    + split; [intros [? [=]] | discriminate].
  - intros y.
    destruct (last (t_shape x)) as [[| [| n]] |] eqn:Hlast; try discriminate.
    intros [= <-]. apply last_Some in Hlast as [shape' Hshape].
    cbn [t_data t_shape]. unfold shape_of, well_formed.
    cbn [t_data t_shape]. rewrite Hshape, removelast_last.
    split; [reflexivity |]. split.
    + rewrite map_app. cbn [map]. unfold squeeze_output_shape.
      by rewrite py_slice_to_minus_one.
    + rewrite numel_snoc. lia.
Qed.

(** X22. The head of the network, slicing followed by squeezing: on a
    well-formed tensor of shape (b, t, h, w, 1) with at least [HORIZONS]
    steps, both layers return, the result is well-formed of shape
    (b, HORIZONS, h, w), and its shape is the one the two shape functions
    declare in turn. *)
Theorem slice_then_squeeze (cfg : Config) x (b t h w : nat) :
  well_formed x ->
  t_shape x = [b; t; h; w; 1%nat] ->
  0 <= HORIZONS cfg <= Z.of_nat t ->
  exists y z,
    slice_output_func cfg x = Some y
    /\ squeeze_output_func y = Some z
    /\ t_shape z = [b; Z.to_nat (HORIZONS cfg); h; w]
    /\ well_formed z
    /\ (let? declared := slice_output_shape cfg (shape_of x) in
        exc_ret (squeeze_output_shape declared))%exc = inr (shape_of z).
Proof.
  intros Hwf Hs [HH Hle].
  pose proof (slice_output_func_eq cfg x b t [h; w; 1%nat] Hs ltac:(cbn; lia)) as Hy.
  rewrite (slice_stop_nonneg _ _ HH), Nat.min_r in Hy by lia.
  pose proof (slice_output_func_wf cfg x _ Hwf Hy) as Hwfy.
  eexists _, _. split; [exact Hy |].
  unfold squeeze_output_func. cbn [t_shape t_data last removelast].
  split; [reflexivity |]. split; [reflexivity |]. split.
  - unfold well_formed in Hwfy |- *. cbn [t_shape t_data numel foldr] in Hwfy |- *.
    lia.
  - rewrite slice_output_shape_as_match. unfold shape_of. rewrite Hs.
    cbn [t_shape map exc_bind exc_ret].
    rewrite Z2Nat.id by exact HH. reflexivity.
Qed.
End TensorTheorems.

Lemma slice_output_func_elements_witness :
  let x := mkTensor [2; 4; 1; 1; 1]%nat [1; 2; 3; 4; 5; 6; 7; 8] in
  let y := mkTensor [2; 3; 1; 1; 1]%nat [1; 2; 3; 5; 6; 7] in
  (well_formed x
   /\ slice_output_func module_config x = Some y
   /\ (1 < 2)%nat /\ (2 < slice_stop (HORIZONS module_config) 4)%nat
   /\ (0 < numel [1; 1; 1]%nat)%nat)
  /\ t_data y !! 5%nat = t_data x !! 6%nat.
Proof.
  intros x y.
  split; [repeat split; vm_compute; try reflexivity; lia |].
  exact (slice_output_func_elements module_config x y 2 4 [1; 1; 1]%nat 1 2 0
           eq_refl eq_refl eq_refl
           ltac:(vm_compute; lia) ltac:(vm_compute; lia) ltac:(vm_compute; lia)).
Defined.

Lemma declared_slice_shape_agrees_witness :
  let x := mkTensor [2; 4; 1; 1; 1]%nat [1; 2; 3; 4; 5; 6; 7; 8] in
  let y := mkTensor [2; 3; 1; 1; 1]%nat [1; 2; 3; 5; 6; 7] in
  (0 <= HORIZONS module_config /\ slice_output_func module_config x = Some y)
  /\ (slice_output_shape module_config (shape_of x) = inr (shape_of y)
      <-> HORIZONS module_config <= 4).
Proof.
  intros x y. split; [split; [vm_compute; discriminate | reflexivity] |].
  exact (declared_slice_shape_agrees module_config x y 2 4 1 1 1 eq_refl
           ltac:(vm_compute; discriminate) eq_refl).
Defined.

Lemma slice_output_func_idempotent_witness :
  let x := mkTensor [2; 4; 1; 1; 1]%nat [1; 2; 3; 4; 5; 6; 7; 8] in
  let y := mkTensor [2; 3; 1; 1; 1]%nat [1; 2; 3; 5; 6; 7] in
  (well_formed x /\ 0 <= HORIZONS module_config
   /\ slice_output_func module_config x = Some y)
  /\ slice_output_func module_config y = Some y.
Proof.
  intros x y.
  split; [split; [reflexivity | split; [vm_compute; discriminate | reflexivity]] |].
  exact (proj1 (slice_output_func_idempotent module_config x y eq_refl
                  ltac:(vm_compute; discriminate) eq_refl)).
Defined.

Lemma slice_then_squeeze_witness :
  let x := mkTensor [2; 4; 1; 1; 1]%nat [1; 2; 3; 4; 5; 6; 7; 8] in
  (well_formed x /\ 0 <= HORIZONS module_config <= 4)
  /\ exists y z,
       slice_output_func module_config x = Some y
       /\ squeeze_output_func y = Some z
       /\ t_shape z = [2; 3; 1; 1]%nat
       /\ well_formed z
       /\ (let? declared := slice_output_shape module_config (shape_of x) in
           exc_ret (squeeze_output_shape declared))%exc = inr (shape_of z).
Proof.
  intros x. split; [split; [reflexivity | vm_compute; split; discriminate] |].
  exact (slice_then_squeeze module_config x 2 4 1 1 eq_refl eq_refl
           ltac:(vm_compute; split; discriminate)).
Defined.
